(** * Remedy REST API wrapper ([bmc/remedy.py]): session client

    A shallow embedding of the module [bmc/remedy.py] and the properties of
    its [RemedySession] class: the login performed by the constructor, the
    token guard of every data operation, logout, the context-manager
    protocol, and the calls each method makes into [requests].

    Conventions.
    - A Python [str] is a Rocq [string] read as UTF-8.
    - A Python [int] is a [Z].
    - [Optional[T]] is [option T]; [None] is [None].
    - A [dict] built or read in insertion order is an association list.
    - The [requests] calls and the [logging] calls are the two effects of
      the module.  Both are recorded in the machine state: the list of
      calls made into [requests], each with its keyword arguments, and
      the list of log records.  How [requests] serves a call (the
      headers it adds, the redirects it follows) lies below the
      module and is not modelled: a call gets the final response, or
      the exception [requests] raises. *)

From Stdlib Require Import String Ascii ZArith List Bool Lia DecimalString.
Import ListNotations.
Local Open Scope string_scope.
Local Open Scope Z_scope.

(** ** Python values used by the module *)

Module Py.

(** [str(n)] and [f"{n}"] for an [int]. *)
Definition str_of_int (n : Z) : string :=
  NilZero.string_of_int (Z.to_int n).

(** [sep.join(parts)]. *)
Definition join (sep : string) (parts : list string) : string :=
  String.concat sep parts.

(** [c * n] for a one-character string [c]. *)
Fixpoint repeat_char (c : ascii) (n : nat) : string :=
  match n with
  | O => EmptyString
  | S n' => String c (repeat_char c n')
  end.

(** A byte of the form [10xxxxxx] continues a UTF-8 sequence. *)
Definition is_continuation (c : ascii) : bool :=
  let n := N_of_ascii c in ((128 <=? n) && (n <? 192))%N.

(** [len(s)]: the number of code points of [s]. *)
Fixpoint len (s : string) : nat :=
  match s with
  | EmptyString => O
  | String c r => if is_continuation c then len r else S (len r)
  end.

Definition lower_char (c : ascii) : ascii :=
  let n := N_of_ascii c in
  if ((65 <=? n) && (n <=? 90))%N then ascii_of_N (n + 32) else c.

(** [s.lower()] on the ASCII letters, which is what header names use. *)
Fixpoint lower (s : string) : string :=
  match s with
  | EmptyString => EmptyString
  | String c r => String (lower_char c) (lower r)
  end.

(** Truth value of an [Optional[str]]: [None] and the empty string are false. *)
Definition truthy_str (s : option string) : bool :=
  match s with
  | Some (String _ _) => true
  | _ => false
  end.

(** Truth value of an [Optional[int]]: [None] and [0] are false. *)
Definition truthy_int (n : option Z) : bool :=
  match n with
  | Some k => negb (k =? 0)
  | None => false
  end.

(** Truth value of an [Optional[List[str]]]: [None] and [[]] are false. *)
Definition truthy_list {A : Type} (l : option (list A)) : bool :=
  match l with
  | Some (_ :: _) => true
  | _ => false
  end.

(** [d[k] = v] on a dict kept in insertion order: an existing key keeps
    its place and takes the new value, a new key goes last. *)
Fixpoint setitem {V : Type} (d : list (string * V)) (k : string) (v : V)
  : list (string * V) :=
  match d with
  | [] => [(k, v)]
  | (k', v') :: d' =>
      if String.eqb k' k then (k', v) :: d' else (k', v') :: setitem d' k v
  end.

(** [d.get(k)]. *)
Fixpoint get {V : Type} (d : list (string * V)) (k : string) : option V :=
  match d with
  | [] => None
  | (k', v) :: d' => if String.eqb k' k then Some v else get d' k
  end.

End Py.

(** ** Structured data: the values of the [json] module *)

#[warnings="-register-all"]
Inductive Json : Type :=
| JNull
| JBool (b : bool)
| JNum (lexeme : string)
| JStr (s : string)
| JArr (items : list Json)
| JObj (members : list (string * Json)).

(** [json.loads], after CPython's [json.decoder] and [json.scanner].
    [requests.Response.json()] hands the body text to it.  A number is
    kept as the text that denotes it. *)
Module JsonDecoder.

Local Open Scope char_scope.

Definition is_ws (c : ascii) : bool :=
  Ascii.eqb c " " || Ascii.eqb c "009" || Ascii.eqb c "010" || Ascii.eqb c "013".

Fixpoint skip_ws (s : string) : string :=
  match s with
  | String c r => if is_ws c then skip_ws r else s
  | EmptyString => s
  end.

Definition is_digit (c : ascii) : bool :=
  let n := N_of_ascii c in ((48 <=? n) && (n <=? 57))%N.

(** The longest run of digits at the front of [s], and what follows. *)
Fixpoint span_digits (s : string) : string * string :=
  match s with
  | String c r =>
      if is_digit c
      then let (d, t) := span_digits r in (String c d, t)
      else (EmptyString, s)
  | EmptyString => (EmptyString, EmptyString)
  end.

(** [NUMBER_RE]: an optional minus sign and either a single zero or a
    run of digits that does not start with zero; then, each optional, a
    point with digits after it, and an exponent. *)
Definition match_int (s : string) : option (string * string) :=
  let body (t : string) :=
    match t with
    | String "0" r => Some (String "0" EmptyString, r)
    | String c _ =>
        if is_digit c then Some (span_digits t) else None
    | EmptyString => None
    end in
  match s with
  | String "-" r =>
      match body r with
      | Some (d, t) => Some (String "-" d, t)
      | None => None
      end
  | _ => body s
  end.

Definition match_frac (s : string) : string * string :=
  match s with
  | String "." r =>
      match span_digits r with
      | (EmptyString, _) => (EmptyString, s)
      | (d, t) => (String "." d, t)
      end
  | _ => (EmptyString, s)
  end.

Definition match_exp (s : string) : string * string :=
  match s with
  | String e r =>
      if Ascii.eqb e "e" || Ascii.eqb e "E" then
        let (sign, r') :=
          match r with
          | String c r'' =>
              if Ascii.eqb c "-" || Ascii.eqb c "+"
              then (String c EmptyString, r'') else (EmptyString, r)
          | EmptyString => (EmptyString, r)
          end in
        match span_digits r' with
        | (EmptyString, _) => (EmptyString, s)
        | (d, t) => ((String e sign ++ d)%string, t)
        end
      else (EmptyString, s)
  | EmptyString => (EmptyString, s)
  end.

Definition match_number (s : string) : option (string * string) :=
  match match_int s with
  | Some (i, r1) =>
      let (f, r2) := match_frac r1 in
      let (e, r3) := match_exp r2 in
      Some ((i ++ f ++ e)%string, r3)
  | None => None
  end.

Definition hex_digit (c : ascii) : option N :=
  let n := N_of_ascii c in
  if ((48 <=? n) && (n <=? 57))%N then Some (n - 48)%N
  else if ((65 <=? n) && (n <=? 70))%N then Some (n - 55)%N
  else if ((97 <=? n) && (n <=? 102))%N then Some (n - 87)%N
  else None.

(** The four hexadecimal digits after [\u]. *)
Definition hex4 (s : string) : option (N * string) :=
  match s with
  | String a (String b (String c (String d r))) =>
      match hex_digit a, hex_digit b, hex_digit c, hex_digit d with
      | Some x, Some y, Some z, Some w =>
          Some (((x * 16 + y) * 16 + z) * 16 + w, r)%N
      | _, _, _, _ => None
      end
  | _ => None
  end.

(** The UTF-8 bytes of a code point. *)
Definition utf8 (cp : N) : string :=
  let byte (n : N) := ascii_of_N n in
  (if cp <? 128 then String (byte cp) EmptyString
   else if cp <? 2048 then
     String (byte (192 + cp / 64))
       (String (byte (128 + cp mod 64)) EmptyString)
   else if cp <? 65536 then
     String (byte (224 + cp / 4096))
       (String (byte (128 + (cp / 64) mod 64))
          (String (byte (128 + cp mod 64)) EmptyString))
   else
     String (byte (240 + cp / 262144))
       (String (byte (128 + (cp / 4096) mod 64))
          (String (byte (128 + (cp / 64) mod 64))
             (String (byte (128 + cp mod 64)) EmptyString))))%N.

(** [\uXXXX], joined with a following low surrogate when it is a high
    one. *)
Definition unicode_escape (s : string) : option (string * string) :=
  match hex4 s with
  | Some (u, r) =>
      if ((55296 <=? u) && (u <=? 56319))%N then
        match r with
        | String "\" (String "u" r') =>
            match hex4 r' with
            | Some (u2, r'') =>
                if ((56320 <=? u2) && (u2 <=? 57343))%N
                then Some (utf8 (65536 + (u - 55296) * 1024 + (u2 - 56320))%N, r'')
                else Some (utf8 u, r)
            | None => Some (utf8 u, r)
            end
        | _ => Some (utf8 u, r)
        end
      else Some (utf8 u, r)
  | None => None
  end.

(** [scanstring] in strict mode, entered after the opening quote. *)
Fixpoint scanstring (fuel : nat) (s : string) : option (string * string) :=
  match fuel with
  | O => None
  | S fuel' =>
      match s with
      | EmptyString => None
      | String "034" r => Some (EmptyString, r)
      | String "\" (String e r) =>
          let plain (c : ascii) :=
            match scanstring fuel' r with
            | Some (t, r') => Some (String c t, r')
            | None => None
            end in
          if Ascii.eqb e "034" then plain "034"
          else if Ascii.eqb e "\" then plain "\"
          else if Ascii.eqb e "/" then plain "/"
          else if Ascii.eqb e "b" then plain "008"
          else if Ascii.eqb e "f" then plain "012"
          else if Ascii.eqb e "n" then plain "010"
          else if Ascii.eqb e "r" then plain "013"
          else if Ascii.eqb e "t" then plain "009"
          else if Ascii.eqb e "u" then
            match unicode_escape r with
            | Some (bytes, r') =>
                match scanstring fuel' r' with
                | Some (t, r'') => Some ((bytes ++ t)%string, r'')
                | None => None
                end
            | None => None
            end
          else None
      | String "\" EmptyString => None
      | String c r =>
          if (N_of_ascii c <? 32)%N then None
          else
            match scanstring fuel' r with
            | Some (t, r') => Some (String c t, r')
            | None => None
            end
      end
  end.

Definition strip_prefix (p s : string) : option string :=
  if prefix p s
  then Some (substring (String.length p) (String.length s - String.length p) s)
  else None.

(** [scan_once], [JSONArray] and [JSONObject].  The two loops carry the
    items read so far, most recent first. *)
Fixpoint scan_once (fuel : nat) (s : string) : option (Json * string) :=
  match fuel with
  | O => None
  | S fuel' =>
      match s with
      | EmptyString => None
      | String "034" r =>
          match scanstring (S (String.length r)) r with
          | Some (t, r') => Some (JStr t, r')
          | None => None
          end
      | String "{" r =>
          match skip_ws r with
          | String "}" r' => Some (JObj [], r')
          | r' => object_members fuel' r' []
          end
      | String "[" r =>
          match skip_ws r with
          | String "]" r' => Some (JArr [], r')
          | r' => array_items fuel' r' []
          end
      | _ =>
          match strip_prefix "null" s, strip_prefix "true" s,
                strip_prefix "false" s with
          | Some r, _, _ => Some (JNull, r)
          | _, Some r, _ => Some (JBool true, r)
          | _, _, Some r => Some (JBool false, r)
          | None, None, None =>
              match match_number s with
              | Some (n, r) => Some (JNum n, r)
              | None =>
                  match strip_prefix "NaN" s, strip_prefix "Infinity" s,
                        strip_prefix "-Infinity" s with
                  | Some r, _, _ => Some (JNum "NaN", r)
                  | _, Some r, _ => Some (JNum "Infinity", r)
                  | _, _, Some r => Some (JNum "-Infinity", r)
                  | None, None, None => None
                  end
              end
          end
      end
  end

with array_items (fuel : nat) (s : string) (acc : list Json)
  : option (Json * string) :=
  match fuel with
  | O => None
  | S fuel' =>
      match scan_once fuel' s with
      | Some (v, r) =>
          match skip_ws r with
          | String "]" r' => Some (JArr (rev (v :: acc)), r')
          | String "," r' => array_items fuel' (skip_ws r') (v :: acc)
          | _ => None
          end
      | None => None
      end
  end

with object_members (fuel : nat) (s : string) (acc : list (string * Json))
  : option (Json * string) :=
  match fuel with
  | O => None
  | S fuel' =>
      match s with
      | String "034" r =>
          match scanstring (S (String.length r)) r with
          | Some (k, r1) =>
              match skip_ws r1 with
              | String ":" r2 =>
                  match scan_once fuel' (skip_ws r2) with
                  | Some (v, r3) =>
                      match skip_ws r3 with
                      | String "}" r4 =>
                          Some (JObj (fold_left
                                        (fun d kv => Py.setitem d (fst kv) (snd kv))
                                        (rev ((k, v) :: acc)) []), r4)
                      | String "," r4 =>
                          object_members fuel' (skip_ws r4) ((k, v) :: acc)
                      | _ => None
                      end
                  | None => None
                  end
              | _ => None
              end
          | None => None
          end
      | _ => None
      end
  end.

(** [json.loads(s)]: one value, white space around it, nothing else.
    [None] stands for [JSONDecodeError].  A nested call is made only
    after a character has been read, and a value and the loop that reads
    its items take one unit of fuel each, so two units for each character
    are enough for any text. *)
Definition loads (s : string) : option Json :=
  match scan_once (S (S (2 * String.length s))) (skip_ws s) with
  | Some (v, r) =>
      match skip_ws r with
      | EmptyString => Some v
      | _ => None
      end
  | None => None
  end.

End JsonDecoder.

(** The double quote, and a word between double quotes. *)
Definition dq : string := String "034" EmptyString.
Definition quoted (s : string) : string := dq ++ s ++ dq.

(** ** HTTP as the module sees it: [requests] *)

Inductive Method : Type := GET | POST | PUT.

(** A value of the [params] dict: [q] and [fields] are strings, [limit]
    is the integer the caller gave. *)
Inductive ParamValue : Type :=
| PStr (s : string)
| PInt (n : Z).

Definition Params : Type := list (string * ParamValue).

(** The keyword arguments of [requests.get], [requests.post] and
    [requests.put].  An argument the call does not pass is [None].  A
    header carries the value of the attribute it was built from. *)
Record Request : Type := {
  req_method : Method;
  req_url : string;
  req_params : option Params;
  req_data : option (list (string * string));
  req_json : option Json;
  req_headers : option (list (string * option string));
  req_timeout : Z
}.

(** The attributes of [requests.Response] the module reads. *)
Record Response : Type := {
  status_code : Z;
  reason : string;
  text : string;
  headers : list (string * string)
}.

(** [response.ok]: true unless [raise_for_status()] raises, which it does
    for the client errors [400..499] and the server errors [500..599]. *)
Definition ok (response : Response) : bool :=
  negb ((400 <=? status_code response) && (status_code response <? 600)).

(** [response.headers.get(name)]: the header dict compares names without
    regard to case. *)
Fixpoint headers_get (hs : list (string * string)) (name : string)
  : option string :=
  match hs with
  | [] => None
  | (k, v) :: hs' =>
      if String.eqb (Py.lower k) (Py.lower name) then Some v
      else headers_get hs' name
  end.

(** What stops a request from being answered at all. *)
Inductive TransportFailure : Type :=
| Timeout
| ConnectionRefused
| NameResolutionFailure.

(** What one call into [requests] comes back with: the response
    [requests] returns, or the failure of the transport it raises. *)
Inductive Reply : Type :=
| Responded (response : Response)
| Failed (cause : TransportFailure).

(** The library, the network and the server behind it: what comes
    back for a call, given the calls made before it. *)
Definition Network : Type := list Request -> Request -> Reply.

(** ** Exceptions *)

(** [RemedyException] and its two subclasses are the module's own.
    [RequestException] is what [requests] raises when a transport fails,
    [JSONDecodeError] what [response.json()] raises, and [OtherException]
    stands for anything the calling code raises by itself. *)
Inductive Exn : Type :=
| RemedyException (msg : string)
| RemedyLoginException (msg : string)
| RemedyLogoutException (msg : string)
| RequestException (cause : TransportFailure)
| JSONDecodeError (doc : string)
| OtherException (cls msg : string).

(** [isinstance(e, RemedyException)]. *)
Definition is_RemedyException (e : Exn) : bool :=
  match e with
  | RemedyException _ | RemedyLoginException _ | RemedyLogoutException _ => true
  | _ => false
  end.

Inductive Outcome (A : Type) : Type :=
| Return (a : A)
| Raise (e : Exn).

Arguments Return {A} a.
Arguments Raise {A} e.

(** ** Logging *)

Inductive Level : Type := DEBUG | INFO | ERROR.

(** What a logging call was given: a string, or an object left for the
    logger to print. *)
Inductive LogArg : Type :=
| LStr (s : string)
| LJsonDumps (obj : Json) (indent : Z)
| LHeaders (h : list (string * option string))
| LParams (p : option Params)
| LJson (obj : Json).

Definition LogRecord : Type := (Level * LogArg)%type.

(** ** The instance and the machine it runs on *)

Record RemedySession : Type := {
  remedy_base_url : string;
  auth_token : option string
}.

Record World : Type := {
  sent : list Request;
  logged : list LogRecord
}.

Record Machine : Type := {
  self : RemedySession;
  world : World
}.

(** A method body: it may read and assign the attributes of [self], send
    requests, write log records, and return or raise. *)
Definition M (A : Type) : Type := Machine -> Outcome A * Machine.

Definition ret {A : Type} (a : A) : M A := fun m => (Return a, m).

Definition raise {A : Type} (e : Exn) : M A := fun m => (Raise e, m).

Definition bind {A B : Type} (c : M A) (k : A -> M B) : M B :=
  fun m =>
    match c m with
    | (Return a, m') => k a m'
    | (Raise e, m') => (Raise e, m')
    end.

Declare Scope remedy_scope.
Delimit Scope remedy_scope with remedy.
Notation "x <- c ;; k" := (bind c (fun x => k))
  (at level 61, c at next level, right associativity) : remedy_scope.
Notation "c ;; k" := (bind c (fun _ => k))
  (at level 61, right associativity) : remedy_scope.
Local Open Scope remedy_scope.

Definition get_remedy_base_url : M string :=
  fun m => (Return (remedy_base_url (self m)), m).

Definition get_auth_token : M (option string) :=
  fun m => (Return (auth_token (self m)), m).

Definition set_remedy_base_url (v : string) : M unit :=
  fun m =>
    (Return tt,
     {| self := {| remedy_base_url := v; auth_token := auth_token (self m) |};
        world := world m |}).

Definition set_auth_token (v : option string) : M unit :=
  fun m =>
    (Return tt,
     {| self := {| remedy_base_url := remedy_base_url (self m); auth_token := v |};
        world := world m |}).

Definition logging (lvl : Level) (arg : LogArg) : M unit :=
  fun m =>
    (Return tt,
     {| self := self m;
        world := {| sent := sent (world m);
                    logged := logged (world m) ++ [(lvl, arg)] |} |}).

(** [response.json()]. *)
Definition json (response : Response) : M Json :=
  match JsonDecoder.loads (text response) with
  | Some v => ret v
  | None => raise (JSONDecodeError (text response))
  end.

(** ** The module *)

Definition ENTRY_PATH : string := "/arsys/v1.0/entry/".
Definition SCHEMA_PATH : string := "/arsys/v1.0/fields/".
Definition LOGIN_PATH : string := "/jwt/login".
Definition LOGOUT_PATH : string := "/jwt/logout".
Definition REST_TIMEOUT : Z := 60.

Section Session.

Variable network : Network.

(** One call into [requests]: the call is recorded with its
    arguments, and either a response comes back or the transport's
    exception is raised. *)
Definition send (rq : Request) : M Response :=
  fun m =>
    let m' := {| self := self m;
                 world := {| sent := sent (world m) ++ [rq];
                             logged := logged (world m) |} |} in
    match network (sent (world m)) rq with
    | Responded response => (Return response, m')
    | Failed cause => (Raise (RequestException cause), m')
    end.

(** [RemedySession.__init__]. *)
Definition __init__ (api_url username password : string) : M unit :=
  set_remedy_base_url api_url ;;
  logging INFO (LStr ("Logging in to Helix ITSM as " ++ username)) ;;
  logging INFO (LStr ("============================"
                        ++ Py.repeat_char "=" (Py.len username))) ;;
  let payload := [("username", username); ("password", password)] in
  base <- get_remedy_base_url ;;
  let login_url := base ++ LOGIN_PATH in
  logging DEBUG (LStr login_url) ;;
  response <- send {| req_method := POST; req_url := login_url;
                      req_params := None; req_data := Some payload;
                      req_json := None; req_headers := None;
                      req_timeout := REST_TIMEOUT |} ;;
  if negb (ok response) then
    raise (RemedyLoginException
             ("Failed to login to Remedy server: HTTP "
                ++ Py.str_of_int (status_code response)
                ++ " (" ++ reason response ++ ")"))
  else
    set_auth_token (Some ("AR-JWT " ++ text response)).

(** The object [__init__] receives: no attribute assigned yet.  Neither
    attribute is read before it is assigned. *)
Definition fresh_instance : RemedySession :=
  {| remedy_base_url := EmptyString; auth_token := None |}.

(** The call [RemedySession(api_url, username, password)]: the caller
    gets the instance only when [__init__] returns. *)
Definition new (api_url username password : string) (w : World)
  : Outcome RemedySession * World :=
  match __init__ api_url username password
                 {| self := fresh_instance; world := w |} with
  | (Return _, m) => (Return (self m), world m)
  | (Raise e, m) => (Raise e, world m)
  end.

(** [RemedySession.logout]. *)
Definition logout : M unit :=
  token <- get_auth_token ;;
  if negb (Py.truthy_str token) then
    raise (RemedyLogoutException "No active login session; cannot logout.")
  else
    let hdrs := [("Authorization", token)] in
    base <- get_remedy_base_url ;;
    response <- send {| req_method := POST; req_url := base ++ LOGOUT_PATH;
                        req_params := None; req_data := None;
                        req_json := None; req_headers := Some hdrs;
                        req_timeout := REST_TIMEOUT |} ;;
    logging INFO (LStr "=================================") ;;
    if negb (ok response) then
      raise (RemedyLogoutException
               ("Failed to log out of Helix ITSM server: ("
                  ++ Py.str_of_int (status_code response) ++ ") "
                  ++ text response ++ dq))
    else
      logging INFO (LStr "Successful logout from Helix ITSM") ;;
      set_auth_token None.

(** [RemedySession.__enter__]. *)
Definition __enter__ : M RemedySession :=
  fun m => (Return (self m), m).

(** [RemedySession.__exit__].  [exc] is the exception in flight, if
    any; the result is [None], the value the method returns.  The log
    line formats the builtin [type]. *)
Definition __exit__ (exc : option Exn) : M (option bool) :=
  token <- get_auth_token ;;
  (if Py.truthy_str token then logout else ret tt) ;;
  (match exc with
   | Some _ => logging INFO (LStr "Exception type was specified! <class 'type'>")
   | None => ret tt
   end) ;;
  ret None.

(** The [fields] query parameter of a truthy field list. *)
Definition values (fields : list string) : ParamValue :=
  PStr ("values(" ++ Py.join "," fields ++ ")").

(** [RemedySession.create_entry]. *)
Definition create_entry (form : string) (field_values : Json)
           (fields : option (list string)) : M (string * Json) :=
  token <- get_auth_token ;;
  if negb (Py.truthy_str token) then
    raise (RemedyException "Unable to create entry without a valid login session")
  else
    base <- get_remedy_base_url ;;
    let target_url := base ++ ENTRY_PATH ++ form in
    let hdrs := [("Authorization", token)] in
    let params :=
      match fields with
      | Some (f :: fs) => Some [("fields", values (f :: fs))]
      | _ => None
      end in
    logging DEBUG (LJsonDumps field_values 4) ;;
    logging DEBUG (LStr target_url) ;;
    logging DEBUG (LHeaders hdrs) ;;
    logging DEBUG (LParams params) ;;
    response <- send {| req_method := POST; req_url := target_url;
                        req_params := params; req_data := None;
                        req_json := Some field_values;
                        req_headers := Some hdrs;
                        req_timeout := REST_TIMEOUT |} ;;
    if negb (ok response) then
      raise (RemedyException ("Failed to create entry: " ++ text response))
    else
      let location :=
        match headers_get (headers response) "Location" with
        | Some (String c r) => String c r
        | _ => EmptyString
        end in
      body <- json response ;;
      ret (location, body).

(** [RemedySession.modify_entry]. *)
Definition modify_entry (form : string) (field_values : Json)
           (entry_id : string) : M unit :=
  token <- get_auth_token ;;
  if negb (Py.truthy_str token) then
    raise (RemedyException "Unable to modify entry without a valid login session")
  else
    logging DEBUG (LStr ("Going to modify incident ref: " ++ entry_id)) ;;
    logging DEBUG (LJson field_values) ;;
    base <- get_remedy_base_url ;;
    let target_url := base ++ ENTRY_PATH ++ form ++ "/" ++ entry_id in
    logging DEBUG (LStr ("URL: " ++ target_url)) ;;
    let hdrs := [("Authorization", token)] in
    response <- send {| req_method := PUT; req_url := target_url;
                        req_params := None; req_data := None;
                        req_json := Some field_values;
                        req_headers := Some hdrs;
                        req_timeout := REST_TIMEOUT |} ;;
    if ok response then
      logging DEBUG (LStr ("Incident modified: " ++ target_url)) ;;
      ret tt
    else
      logging ERROR (LStr ("Error modifying incident: " ++ text response)) ;;
      raise (RemedyException "Failed to modify the incident").

(** The [params] dict of [query_form]: a key is set when its argument
    is truthy. *)
Definition query_params (query : option string) (fields : option (list string))
           (limit : option Z) : Params :=
  let params := [] in
  let params :=
    match query with
    | Some (String c r) => Py.setitem params "q" (PStr (String c r))
    | _ => params
    end in
  let params :=
    match limit with
    | Some n => if n =? 0 then params else Py.setitem params "limit" (PInt n)
    | None => params
    end in
  match fields with
  | Some (f :: fs) => Py.setitem params "fields" (values (f :: fs))
  | _ => params
  end.

(** [RemedySession.query_form]. *)
Definition query_form (form : string) (query : option string)
           (fields : option (list string)) (limit : option Z) : M Json :=
  token <- get_auth_token ;;
  if negb (Py.truthy_str token) then
    raise (RemedyException "Unable to get entry without a valid login session")
  else
    base <- get_remedy_base_url ;;
    let target_url := base ++ ENTRY_PATH ++ form in
    logging DEBUG (LStr ("Target URL: " ++ target_url)) ;;
    let hdrs := [("Authorization", token)] in
    let params := query_params query fields limit in
    response <- send {| req_method := GET; req_url := target_url;
                        req_params := Some params; req_data := None;
                        req_json := None; req_headers := Some hdrs;
                        req_timeout := REST_TIMEOUT |} ;;
    if ok response then json response
    else raise (RemedyException ("Error getting entry: " ++ text response)).

(** [RemedySession.get_schema]. *)
Definition get_schema (form : string) : M Json :=
  token <- get_auth_token ;;
  if negb (Py.truthy_str token) then
    raise (RemedyException "Unable to get schema without a valid login session")
  else
    base <- get_remedy_base_url ;;
    let target_url := base ++ SCHEMA_PATH ++ form in
    logging DEBUG (LStr ("Target URL: " ++ target_url)) ;;
    let hdrs := [("Authorization", token)] in
    let params :=
      [("field_criteria", PStr "NAME, DATATYPE, LIMIT, DISPLAY_INSTANCE, OPTIONS");
       ("field_type", PStr "DATA, ATTACH, ATTACHPOOL")] in
    response <- send {| req_method := GET; req_url := target_url;
                        req_params := Some params; req_data := None;
                        req_json := None; req_headers := Some hdrs;
                        req_timeout := REST_TIMEOUT |} ;;
    if ok response then json response
    else raise (RemedyException ("Error getting form schema: " ++ text response)).

(** The [with] statement around a session: [__enter__], the block, and
    [__exit__] on the way out.  An exception leaving the block is
    re-raised unless [__exit__] returns a true value; an exception
    raised by [__exit__] itself takes its place. *)
Definition with_session (block : M unit) : M unit :=
  fun m =>
    match __enter__ m with
    | (Raise e, m0) => (Raise e, m0)
    | (Return _, m0) =>
        match block m0 with
        | (Return _, m1) =>
            match __exit__ None m1 with
            | (Return _, m2) => (Return tt, m2)
            | (Raise e', m2) => (Raise e', m2)
            end
        | (Raise e, m1) =>
            match __exit__ (Some e) m1 with
            | (Return (Some true), m2) => (Return tt, m2)
            | (Return _, m2) => (Raise e, m2)
            | (Raise e', m2) => (Raise e', m2)
            end
        end
    end.

(** [with RemedySession(api_url, username, password) as s: block]. *)
Definition with_new (api_url username password : string) (block : M unit)
           (w : World) : Outcome unit * World :=
  match new api_url username password w with
  | (Return s, w1) =>
      let (o, m) := with_session block {| self := s; world := w1 |} in
      (o, world m)
  | (Raise e, w1) => (Raise e, w1)
  end.

(** *** Calls on an instance *)

Inductive Call : Type :=
| CreateEntry (form : string) (field_values : Json) (fields : option (list string))
| ModifyEntry (form : string) (field_values : Json) (entry_id : string)
| QueryForm (form : string) (query : option string)
            (fields : option (list string)) (limit : option Z)
| GetSchema (form : string)
| Logout.

(** What a call hands back. *)
Inductive Value : Type :=
| VNone
| VBody (body : Json)
| VCreated (location : string) (body : Json).

Definition is_data_operation (c : Call) : bool :=
  match c with
  | Logout => false
  | _ => true
  end.

Definition invoke (c : Call) : M Value :=
  match c with
  | CreateEntry form field_values fields =>
      r <- create_entry form field_values fields ;;
      ret (VCreated (fst r) (snd r))
  | ModifyEntry form field_values entry_id =>
      modify_entry form field_values entry_id ;; ret VNone
  | QueryForm form query fields limit =>
      body <- query_form form query fields limit ;; ret (VBody body)
  | GetSchema form =>
      body <- get_schema form ;; ret (VBody body)
  | Logout =>
      logout ;; ret VNone
  end.

(** A caller that makes the calls in turn and keeps going after an
    exception: the outcomes in order, and the machine at the end. *)
Fixpoint run (cs : list Call) (m : Machine) : list (Outcome Value) * Machine :=
  match cs with
  | [] => ([], m)
  | c :: cs' =>
      let (o, m1) := invoke c m in
      let (os, m2) := run cs' m1 in
      (o :: os, m2)
  end.

End Session.

(** ** Vocabulary of the properties *)

(** The session holds a token the guards accept. *)
Definition has_token (m : Machine) : bool :=
  Py.truthy_str (auth_token (self m)).

(** The failure of a data operation called without a token: a
    [RemedyException] that says which operation needs a login session. *)
Definition NotAuthenticated (e : Exn) : Prop :=
  exists what : string,
    e = RemedyException ("Unable to " ++ what ++ " without a valid login session").

(** The failure of [logout] called without a token. *)
Definition NoActiveSession : Exn :=
  RemedyLogoutException "No active login session; cannot logout.".

(** How a session without a token answers a call. *)
Definition refused (c : Call) (o : Outcome Value) : Prop :=
  match c with
  | Logout => o = Raise NoActiveSession
  | _ => exists e, o = Raise e /\ NotAuthenticated e
  end.

(** The status classes of HTTP. *)
Definition is_2xx (response : Response) : bool :=
  (200 <=? status_code response) && (status_code response <? 300).

Definition is_http_error (response : Response) : bool :=
  (400 <=? status_code response) && (status_code response <? 600).

(** [needle in hay]. *)
Fixpoint contains (needle hay : string) : bool :=
  prefix needle hay ||
  match hay with
  | EmptyString => false
  | String _ rest => contains needle rest
  end.

(** [str(e)]: the text an exception carries. *)
Definition message (e : Exn) : string :=
  match e with
  | RemedyException msg | RemedyLoginException msg | RemedyLogoutException msg => msg
  | JSONDecodeError doc => doc
  | OtherException _ msg => msg
  | RequestException _ => EmptyString
  end.

(** A query parameter of a request, if it is sent. *)
Definition req_param (rq : Request) (name : string) : option ParamValue :=
  match req_params rq with
  | Some d => Py.get d name
  | None => None
  end.

(** The machine after a method that sent [rq], wrote the records [lg]
    and assigned no attribute. *)
Definition after (m : Machine) (rq : Request) (lg : list LogRecord) : Machine :=
  {| self := self m;
     world := {| sent := sent (world m) ++ [rq];
                 logged := logged (world m) ++ lg |} |}.

(** *** The requests of the interface table

    One call into [requests] per operation, written from the table of
    endpoints: the
    method, the path under the base URL, the body, the query parameters
    and the [Authorization] header. *)

Definition authorization (s : RemedySession) : option (list (string * option string)) :=
  Some [("Authorization", auth_token s)].

Definition login_request (api_url username password : string) : Request :=
  {| req_method := POST; req_url := api_url ++ "/jwt/login";
     req_params := None;
     req_data := Some [("username", username); ("password", password)];
     req_json := None; req_headers := None; req_timeout := 60 |}.

Definition logout_request (s : RemedySession) : Request :=
  {| req_method := POST; req_url := remedy_base_url s ++ "/jwt/logout";
     req_params := None; req_data := None; req_json := None;
     req_headers := authorization s; req_timeout := 60 |}.

Definition request_of (c : Call) (s : RemedySession) : Request :=
  match c with
  | CreateEntry form field_values fields =>
      {| req_method := POST;
         req_url := remedy_base_url s ++ "/arsys/v1.0/entry/" ++ form;
         req_params :=
           match fields with
           | Some (f :: fs) => Some [("fields", values (f :: fs))]
           | _ => None
           end;
         req_data := None; req_json := Some field_values;
         req_headers := authorization s; req_timeout := 60 |}
  | ModifyEntry form field_values entry_id =>
      {| req_method := PUT;
         req_url := remedy_base_url s ++ "/arsys/v1.0/entry/" ++ form ++ "/" ++ entry_id;
         req_params := None; req_data := None; req_json := Some field_values;
         req_headers := authorization s; req_timeout := 60 |}
  | QueryForm form query fields limit =>
      {| req_method := GET;
         req_url := remedy_base_url s ++ "/arsys/v1.0/entry/" ++ form;
         req_params := Some (query_params query fields limit);
         req_data := None; req_json := None;
         req_headers := authorization s; req_timeout := 60 |}
  | GetSchema form =>
      {| req_method := GET;
         req_url := remedy_base_url s ++ "/arsys/v1.0/fields/" ++ form;
         req_params :=
           Some [("field_criteria", PStr "NAME, DATATYPE, LIMIT, DISPLAY_INSTANCE, OPTIONS");
                 ("field_type", PStr "DATA, ATTACH, ATTACHPOOL")];
         req_data := None; req_json := None;
         req_headers := authorization s; req_timeout := 60 |}
  | Logout => logout_request s
  end.

(** *** What each call makes of the reply

    The outcome of a call on a session that holds a token, as a function
    of the reply alone. *)

Definition location_of (response : Response) : string :=
  match headers_get (headers response) "Location" with
  | Some (String c r) => String c r
  | _ => EmptyString
  end.

Definition decoded (response : Response) (k : Json -> Value) : Outcome Value :=
  match JsonDecoder.loads (text response) with
  | Some body => Return (k body)
  | None => Raise (JSONDecodeError (text response))
  end.

(** The exception a call raises on a response that is not [ok]. *)
Definition http_failure (c : Call) (response : Response) : Exn :=
  match c with
  | CreateEntry _ _ _ =>
      RemedyException ("Failed to create entry: " ++ text response)
  | ModifyEntry _ _ _ =>
      RemedyException "Failed to modify the incident"
  | QueryForm _ _ _ _ =>
      RemedyException ("Error getting entry: " ++ text response)
  | GetSchema _ =>
      RemedyException ("Error getting form schema: " ++ text response)
  | Logout =>
      RemedyLogoutException
        ("Failed to log out of Helix ITSM server: ("
           ++ Py.str_of_int (status_code response) ++ ") "
           ++ text response ++ dq)
  end.

Definition answer (c : Call) (reply : Reply) : Outcome Value :=
  match reply with
  | Failed cause => Raise (RequestException cause)
  | Responded response =>
      if ok response then
        match c with
        | CreateEntry _ _ _ => decoded response (VCreated (location_of response))
        | ModifyEntry _ _ _ | Logout => Return VNone
        | QueryForm _ _ _ _ | GetSchema _ => decoded response VBody
        end
      else Raise (http_failure c response)
  end.

(** The instance after a call: only a [logout] that returned has
    assigned an attribute. *)
Definition settled (c : Call) (o : Outcome Value) (s : RemedySession)
  : RemedySession :=
  match c, o with
  | Logout, Return _ =>
      {| remedy_base_url := remedy_base_url s; auth_token := None |}
  | _, _ => s
  end.

(** *** Networks to run the module against *)

(** Answers the n-th request with the n-th reply; nobody answers once
    the script is over. *)
Definition scripted (replies : list Reply) : Network :=
  fun history _ => nth (length history) replies (Failed ConnectionRefused).

(** Gives the same reply to every request. *)
Definition always (reply : Reply) : Network :=
  fun _ _ => reply.

Definition quiet : World := {| sent := []; logged := [] |}.

Definition logged_in : Machine :=
  {| self := {| remedy_base_url := "https://itsm.example";
                auth_token := Some "AR-JWT tok123" |};
     world := quiet |}.

Definition logged_out : Machine :=
  {| self := {| remedy_base_url := "https://itsm.example"; auth_token := None |};
     world := quiet |}.

Definition respond (status : Z) (phrase body : string)
           (hs : list (string * string)) : Response :=
  {| status_code := status; reason := phrase; text := body; headers := hs |}.

Definition not_found_body : string :=
  "{" ++ quoted "error" ++ ":" ++ quoted "not found" ++ "}".

(** Responses and networks of the examples. *)

Definition token_issued : Response := respond 200 "OK" "tok123" [].

Definition no_content : Response := respond 204 "No Content" EmptyString [].

Definition not_modified : Response := respond 304 "Not Modified" EmptyString [].

Definition not_found : Response := respond 404 "Not Found" not_found_body [].

Definition server_error : Response :=
  respond 500 "Internal Server Error" "busy" [].

Definition created_no_body : Response :=
  respond 201 "Created" EmptyString
          [("Location", "https://itsm.example/arsys/v1.0/entry/HPD:Help%20Desk/INC000000000001")].

Definition unreachable : Network := always (Failed Timeout).

Definition fails_then_accepts : Network :=
  scripted [Responded server_error; Responded no_content].

Definition after_logout : Machine :=
  snd (logout (always (Responded no_content)) logged_in).

Definition later_calls : list Call :=
  [GetSchema "HPD:Help Desk"; Logout; QueryForm "HPD:Help Desk" None None None].

Definition after_failed_logout : Machine :=
  snd (invoke fails_then_accepts Logout logged_in).

(** A block that raises by itself. *)
Definition failing_block : M unit := raise (OtherException "ValueError" "boom").

(** *** Vocabulary of the further properties *)

(** A call into [requests] made on behalf of the session [s]: its
    [headers] argument holds the token of [s] and nothing else, its
    [timeout] argument is the module's, and its URL argument starts with
    the base URL of [s]. *)
Definition from_session (s : RemedySession) (rq : Request) : Prop :=
  req_headers rq = Some [("Authorization", auth_token s)]
  /\ req_timeout rq = REST_TIMEOUT
  /\ prefix (remedy_base_url s) (req_url rq) = true.

Definition is_modify (c : Call) : bool :=
  match c with
  | ModifyEntry _ _ _ => true
  | _ => false
  end.

(** The calls that hand back the decoded body alone. *)
Definition returns_body (c : Call) : bool :=
  match c with
  | QueryForm _ _ _ _ | GetSchema _ => true
  | _ => false
  end.

(** The records [__init__] writes to the log. *)
Definition login_log (api_url username : string) : list LogRecord :=
  [(INFO, LStr ("Logging in to Helix ITSM as " ++ username));
   (INFO, LStr ("============================"
                  ++ Py.repeat_char "=" (Py.len username)));
   (DEBUG, LStr (api_url ++ "/jwt/login"))].

(** Further responses, calls and blocks of the examples. *)

Definition entries_reply : Response :=
  respond 200 "OK" ("{" ++ quoted "entries" ++ ": []}")
          [("location", "https://itsm.example/arsys/v1.0/entry/HPD:Help%20Desk/INC000000000001")].

Definition maintenance_page : Response :=
  respond 200 "OK" "<html>maintenance</html>" [].

Definition working_day : list Call :=
  [GetSchema "HPD:Help Desk";
   ModifyEntry "HPD:Help Desk" (JObj [("Status", JStr "Resolved")]) "INC000000000001";
   Logout;
   QueryForm "HPD:Help Desk" (Some "'Status' = 0") None (Some 5)].

Definition quiet_block : M unit := ret tt.

(** A block that logs out by itself and then raises. *)
Definition inner_logout_block : M unit :=
  logout (always (Responded no_content)) ;; failing_block.

(** ** Stepping through a method *)

Ltac unfold_methods :=
  cbv [invoke create_entry modify_entry query_form get_schema logout
       __init__ __enter__ __exit__ new fresh_instance
       request_of logout_request login_request authorization after has_token
       ENTRY_PATH SCHEMA_PATH LOGIN_PATH LOGOUT_PATH REST_TIMEOUT
       bind ret raise get_auth_token get_remedy_base_url set_auth_token
       set_remedy_base_url logging send json answer decoded settled
       location_of http_failure
       self world sent logged remedy_base_url auth_token] in *.

(** Closes a goal [exists lg, logged ++ lg = ...] once the records
    written are in the goal. *)
Ltac close_log :=
  rewrite <- ?app_assoc; cbn [app];
  first [ eexists; reflexivity | exists []; rewrite app_nil_r; reflexivity ].

(** * Properties *)

(** ** The decoder on a few bodies *)

Example loads_object :
  JsonDecoder.loads
    ("{" ++ quoted "values" ++ ": {" ++ quoted "Status" ++ ": " ++ quoted "New"
         ++ ", " ++ quoted "Priority" ++ ": 2}}")
  = Some (JObj [("values", JObj [("Status", JStr "New"); ("Priority", JNum "2")])]).
Proof. vm_compute. reflexivity. Qed.

Example loads_array :
  JsonDecoder.loads (" [1, -2.5e3, true, null, " ++ quoted "a\n\u00e9" ++ ", [], {}] ")
  = Some (JArr [JNum "1"; JNum "-2.5e3"; JBool true; JNull;
                JStr (String "a" (String "010" (String "195" (String "169" EmptyString))));
                JArr []; JObj []]).
Proof. vm_compute. reflexivity. Qed.

Example loads_duplicate_key :
  JsonDecoder.loads ("{" ++ quoted "a" ++ ":1," ++ quoted "b" ++ ":2," ++ quoted "a" ++ ":3}")
  = Some (JObj [("a", JNum "3"); ("b", JNum "2")]).
Proof. vm_compute. reflexivity. Qed.

Example loads_rejects :
  map JsonDecoder.loads
    [EmptyString; "   "; "[1,]"; "{" ++ quoted "a" ++ ":1,}"; "01"; "1."; "nul"; "{} x"; "Status: New"]
  = [None; None; None; None; None; None; None; None; None].
Proof. vm_compute. reflexivity. Qed.


Lemma is_2xx_ok response : is_2xx response = true -> ok response = true.
Proof.
  unfold is_2xx, ok. intros H.
  apply andb_true_iff in H. destruct H as [_ H]. apply Z.ltb_lt in H.
  apply negb_true_iff, andb_false_iff. left. apply Z.leb_gt. lia.
Qed.

Lemma is_http_error_ok response : ok response = negb (is_http_error response).
Proof. reflexivity. Qed.

Lemma prefix_refl_app (x s : string) : prefix x (x ++ s) = true.
Proof.
  induction x as [|c x IH]; cbn.
  - destruct s; reflexivity.
  - destruct (ascii_dec c c) as [_|N]; [exact IH | contradiction].
Qed.

Lemma contains_here (x s : string) : contains x (x ++ s) = true.
Proof.
  destruct (x ++ s) eqn:E; cbn [contains]; rewrite <- E, prefix_refl_app; reflexivity.
Qed.

Lemma contains_later (x p s : string) :
  contains x s = true -> contains x (p ++ s) = true.
Proof.
  intros H. induction p as [|c p IH]; [exact H|].
  cbn [append contains]. rewrite IH. apply orb_true_r.
Qed.

Lemma contains_infix (x p s : string) : contains x (p ++ x ++ s) = true.
Proof. apply contains_later, contains_here. Qed.

Lemma prefix_refl (x : string) : prefix x x = true.
Proof.
  induction x as [|c x IH]; cbn; [reflexivity|].
  destruct (ascii_dec c c) as [_|N]; [exact IH | contradiction].
Qed.

Lemma contains_suffix (x p : string) : contains x (p ++ x) = true.
Proof.
  apply contains_later. destruct x; cbn [contains]; rewrite prefix_refl; reflexivity.
Qed.

(** A call on a session without a token: refused on the spot, the
    machine as it was. *)
Lemma invoke_without_token network c m :
  has_token m = false ->
  exists o, invoke network c m = (o, m) /\ refused c o.
Proof.
  intros H. destruct m as [[base tok] w].
  destruct c; unfold_methods; cbn in H; rewrite H; cbn;
    eexists; (split; [reflexivity|]); cbn; try reflexivity;
    eexists; (split; [reflexivity|]).
  - exists "create entry". reflexivity.
  - exists "modify entry". reflexivity.
  - exists "get entry". reflexivity.
  - exists "get schema". reflexivity.
Qed.

(** A call on a session with a token: the request of the interface table
    goes out, and the reply decides the outcome. *)
Lemma invoke_with_token network c m :
  has_token m = true ->
  exists lg,
    invoke network c m =
      (answer c (network (sent (world m)) (request_of c (self m))),
       {| self := settled c (answer c (network (sent (world m))
                                                (request_of c (self m)))) (self m);
          world := {| sent := sent (world m) ++ [request_of c (self m)];
                      logged := logged (world m) ++ lg |} |}).
Proof.
  intros H. destruct m as [[base tok] [snt lgd]].
  destruct c; unfold_methods; cbn in H; rewrite H; cbn.
  all: destruct (network _ _) as [resp|cause].
  all: try (destruct (ok resp) eqn:E; cbn).
  all: try (destruct (JsonDecoder.loads (text resp)) eqn:L; cbn).
  all: close_log.
Qed.

(** The wrapper [invoke] leaves the machine where the method left it. *)
Lemma bind_ret_machine {A B : Type} (c : M A) (f : A -> B) (m : Machine) :
  snd (bind c (fun a => ret (f a)) m) = snd (c m).
Proof. unfold bind, ret. destruct (c m) as [[a|e] m']; reflexivity. Qed.

Lemma bind_ret_outcome {A B : Type} (c : M A) (f : A -> B) (m : Machine) :
  fst (bind c (fun a => ret (f a)) m)
  = match fst (c m) with Return a => Return (f a) | Raise e => Raise e end.
Proof. unfold bind, ret. destruct (c m) as [[a|e] m']; reflexivity. Qed.

(** [logout] in terms of the call [Logout]. *)
Lemma logout_invoke network m :
  logout network m =
    (match fst (invoke network Logout m) with
     | Return _ => Return tt
     | Raise e => Raise e
     end, snd (invoke network Logout m)).
Proof.
  unfold invoke, bind, ret.
  destruct (logout network m) as [[[]|e] m']; reflexivity.
Qed.

(** What a [logout] that returned has done. *)
Lemma logout_returned network m m1 :
  logout network m = (Return tt, m1) ->
  has_token m = true /\
  self m1 = {| remedy_base_url := remedy_base_url (self m); auth_token := None |} /\
  sent (world m1) = (sent (world m) ++ [logout_request (self m)])%list /\
  exists response,
    network (sent (world m)) (logout_request (self m)) = Responded response /\
    ok response = true.
Proof.
  intros H. rewrite logout_invoke in H.
  destruct (has_token m) eqn:T.
  - destruct (invoke_with_token network Logout m T) as [lg E].
    rewrite E in H. cbn [fst snd] in H. cbn [request_of] in *.
    destruct (network (sent (world m)) (logout_request (self m))) as [r|c];
      cbn in H; [|discriminate].
    destruct (ok r) eqn:K; cbn in H; [|discriminate].
    inversion H; subst m1; cbn. repeat split; eauto.
  - destruct (invoke_without_token network Logout m T) as [o [E R]].
    rewrite E in H. cbn in R, H. subst o. discriminate.
Qed.

(** ** The token guard *)

(** C1.  Each of [create_entry], [modify_entry], [query_form] and
    [get_schema], called on a session that holds no token ([None], as
    after logout, or an empty string), raises the [RemedyException] that
    names the missing login session and leaves the machine exactly as it
    was: no request has been sent and no attribute assigned. *)
Theorem data_operation_without_token
        (network : Network) (m : Machine)
        (form entry_id : string) (field_values : Json)
        (query : option string) (fields : option (list string))
        (limit : option Z) :
  has_token m = false ->
  create_entry network form field_values fields m
    = (Raise (RemedyException
                "Unable to create entry without a valid login session"), m)
  /\ modify_entry network form field_values entry_id m
    = (Raise (RemedyException
                "Unable to modify entry without a valid login session"), m)
  /\ query_form network form query fields limit m
    = (Raise (RemedyException
                "Unable to get entry without a valid login session"), m)
  /\ get_schema network form m
    = (Raise (RemedyException
                "Unable to get schema without a valid login session"), m).
Proof.
  intros H. destruct m as [[base tok] w].
  unfold_methods. cbn in H. rewrite H. cbn. repeat split.
Qed.

Lemma data_operation_without_token_witness :
  has_token logged_out = false
  /\ fst (get_schema unreachable "HPD:Help Desk" logged_out)
     = Raise (RemedyException
                "Unable to get schema without a valid login session")
  /\ sent (world (snd (get_schema unreachable "HPD:Help Desk" logged_out))) = [].
Proof.
  pose proof (data_operation_without_token
                unreachable logged_out "HPD:Help Desk"
                EmptyString (JObj []) None None None eq_refl)
    as [_ [_ [_ H]]].
  rewrite H. repeat split.
Defined.

(** A session without a token stays as it is under any sequence of
    calls, and refuses each of them. *)
Lemma run_without_token network cs m :
  has_token m = false ->
  snd (run network cs m) = m /\ Forall2 refused cs (fst (run network cs m)).
Proof.
  intros H. induction cs as [|c cs IH]; cbn [run].
  - split; [reflexivity | constructor].
  - destruct (invoke_without_token network c m H) as [o [E R]].
    rewrite E. destruct (run network cs m) as [os m2].
    cbn [fst snd] in *. destruct IH as [IH1 IH2].
    split; [exact IH1 | constructor; assumption].
Qed.

(** C3.  A [logout] that returns has set the token to [None], and from
    then on the instance is closed for good: whatever calls follow, in
    whatever order, every data operation is refused with the
    [RemedyException] of the token guard, every further [logout] with
    [RemedyLogoutException("No active login session; cannot logout.")],
    and the machine stays as the logout left it, so none of these calls
    sends a request. *)
Theorem closed_is_terminal (network : Network) (m m1 : Machine) (cs : list Call) :
  logout network m = (Return tt, m1) ->
  auth_token (self m1) = None
  /\ Forall2 refused cs (fst (run network cs m1))
  /\ snd (run network cs m1) = m1
  /\ sent (world (snd (run network cs m1))) = sent (world m1).
Proof.
  intros H. apply logout_returned in H. destruct H as [_ [S _]].
  assert (T : has_token m1 = false) by (unfold has_token; rewrite S; reflexivity).
  destruct (run_without_token network cs m1 T) as [R1 R2].
  rewrite S at 1. cbn. rewrite R1. repeat split; assumption.
Qed.

Lemma closed_is_terminal_witness :
  auth_token (self after_logout) = None
  /\ Forall2 refused later_calls
             (fst (run (always (Responded no_content)) later_calls after_logout))
  /\ snd (run (always (Responded no_content)) later_calls after_logout) = after_logout
  /\ sent (world (snd (run (always (Responded no_content)) later_calls after_logout)))
     = sent (world after_logout).
Proof.
  exact (closed_is_terminal (always (Responded no_content))
                            logged_in after_logout later_calls eq_refl).
Defined.

(** ** What a call may change *)

(** C10, as amended.  Whatever the call and its outcome, the base URL
    stays; a data operation leaves both attributes as they were, whether
    it returns or raises; so does any call that raises; the token
    changes only when [logout] returns, and then to [None].  A [logout]
    on a session holding a token fails when the response has a status
    from 400 to 599 or when the transport fails: it then raises, both
    attributes are as they were and the token is still held.  After such
    a failed [logout] a further [logout] that gets an [ok] response
    returns and clears the token. *)
Theorem token_changes_only_on_logout
        (network : Network) (c : Call) (m m' : Machine) (o : Outcome Value) :
  invoke network c m = (o, m') ->
  remedy_base_url (self m') = remedy_base_url (self m)
  /\ (is_data_operation c = true -> self m' = self m)
  /\ (forall e, o = Raise e -> self m' = self m)
  /\ (auth_token (self m') <> auth_token (self m) ->
      c = Logout /\ o = Return VNone /\ auth_token (self m') = None)
  /\ (c = Logout -> has_token m = true -> forall e, o = Raise e ->
      has_token m' = true
      /\ forall response,
          network (sent (world m')) (logout_request (self m')) = Responded response ->
          ok response = true ->
          exists m'', logout network m' = (Return tt, m'')
                      /\ auth_token (self m'') = None)
  /\ (c = Logout -> has_token m = true ->
      match network (sent (world m)) (logout_request (self m)) with
      | Responded response =>
          is_http_error response = true ->
          o = Raise (http_failure Logout response)
          /\ self m' = self m /\ has_token m' = true
      | Failed cause =>
          o = Raise (RequestException cause)
          /\ self m' = self m /\ has_token m' = true
      end).
Proof.
  intros E.
  assert (F : self m' = settled c o (self m)).
  { destruct (has_token m) eqn:T.
    - destruct (invoke_with_token network c m T) as [lg E'].
      rewrite E' in E. inversion E; subst. reflexivity.
    - destruct (invoke_without_token network c m T) as [o' [E' R]].
      rewrite E' in E. inversion E; subst.
      destruct c; cbn in *; try reflexivity. rewrite R. reflexivity. }
  assert (O : c = Logout -> forall a, o = Return a -> a = VNone).
  { intros -> a ->. unfold invoke, bind, ret in E.
    destruct (logout network m) as [[[]|e] m1]; inversion E; reflexivity. }
  split; [| split; [| split; [| split; [| split]]]].
  - rewrite F. destruct c, o; reflexivity.
  - intros D. rewrite F. destruct c, o; try reflexivity; discriminate.
  - intros e ->. rewrite F. destruct c; reflexivity.
  - intros N. rewrite F in N |- *.
    destruct c, o; cbn in N |- *; try (exfalso; apply N; reflexivity).
    repeat split. f_equal. apply (O eq_refl a eq_refl).
  - intros -> T e ->. cbn in F.
    assert (T' : has_token m' = true) by (unfold has_token; rewrite F; exact T).
    split; [exact T'|]. intros r R K.
    destruct (invoke_with_token network Logout m' T') as [lg E'].
    cbn [request_of] in E'. rewrite R in E'. cbn [answer] in E'.
    rewrite K in E'. cbn [settled] in E'.
    eexists. split.
    + rewrite logout_invoke, E'. cbn [fst snd]. reflexivity.
    + reflexivity.
  - intros -> T.
    destruct (invoke_with_token network Logout m T) as [lg E'].
    rewrite E' in E. cbn [request_of] in E.
    destruct (network (sent (world m)) (logout_request (self m))) as [r|cause].
    + intros K. cbn [answer] in E.
      rewrite is_http_error_ok, K in E. cbn [negb settled] in E.
      inversion E; subst. cbn. repeat split. exact T.
    + cbn [answer settled] in E. inversion E; subst. cbn. repeat split. exact T.
Qed.

Lemma token_changes_only_on_logout_witness :
  is_http_error server_error = true
  /\ fst (invoke fails_then_accepts Logout logged_in)
     = Raise (http_failure Logout server_error)
  /\ self after_failed_logout = self logged_in
  /\ has_token after_failed_logout = true
  /\ exists m'', logout fails_then_accepts after_failed_logout = (Return tt, m'')
                 /\ auth_token (self m'') = None.
Proof.
  destruct (token_changes_only_on_logout
              fails_then_accepts Logout logged_in after_failed_logout _ eq_refl)
    as [_ [_ [_ [_ [H5 H6]]]]].
  destruct (H6 eq_refl eq_refl eq_refl) as [G1 [G2 G3]].
  destruct (H5 eq_refl eq_refl _ eq_refl) as [_ H7].
  split; [reflexivity | split; [exact G1 | split; [exact G2 | split; [exact G3 |]]]].
  exact (H7 no_content eq_refl eq_refl).
Defined.

(** C10, counterexample.  A [logout] answered with status 304 gets a
    response that is not 2xx, yet it is [ok]: the call returns and the
    token, held before, is [None] afterwards. *)
Lemma logout_not_modified_clears_token :
  is_2xx not_modified = false
  /\ has_token logged_in = true
  /\ fst (invoke (always (Responded not_modified)) Logout logged_in) = Return VNone
  /\ auth_token (self (snd (invoke (always (Responded not_modified))
                                   Logout logged_in))) = None
  /\ auth_token (self (snd (invoke (always (Responded not_modified))
                                   Logout logged_in)))
     <> auth_token (self logged_in).
Proof. repeat split. discriminate. Qed.

(** ** Login *)

(** The constructor, step by step: one call into [requests], then the
    reply decides. *)
Lemma new_steps network api_url username password w :
  exists lg,
    new network api_url username password w =
      (match network (sent w) (login_request api_url username password) with
       | Failed cause => Raise (RequestException cause)
       | Responded response =>
           if ok response then
             Return {| remedy_base_url := api_url;
                       auth_token := Some ("AR-JWT " ++ text response) |}
           else
             Raise (RemedyLoginException
                      ("Failed to login to Remedy server: HTTP "
                         ++ Py.str_of_int (status_code response)
                         ++ " (" ++ reason response ++ ")"))
       end,
       {| sent := sent w ++ [login_request api_url username password];
          logged := logged w ++ lg |}).
Proof.
  destruct w as [snt lgd]. unfold_methods. cbn.
  destruct (network _ _) as [resp|cause]; [destruct (ok resp)|]; cbn; close_log.
Qed.

(** While [__init__] runs, the token is assigned only after an [ok]
    response. *)
Lemma init_raised_no_token network api_url username password w e m :
  __init__ network api_url username password
           {| self := fresh_instance; world := w |} = (Raise e, m) ->
  auth_token (self m) = None.
Proof.
  destruct w as [snt lgd]. unfold_methods. cbn.
  destruct (network _ _) as [resp|cause]; [destruct (ok resp)|]; cbn;
    intros H; inversion H; reflexivity.
Qed.

(** C2, as amended.  For every login response with a status from 400 to
    599, which are the responses that are not [ok], the constructor
    raises [RemedyLoginException]; its message carries the status code
    and the reason phrase; the caller gets no instance; and the instance
    under construction has no token assigned. *)
Theorem login_http_error
        (network : Network) (api_url username password : string)
        (w : World) (response : Response) :
  network (sent w) (login_request api_url username password) = Responded response ->
  is_http_error response = true ->
  exists msg w',
    new network api_url username password w = (Raise (RemedyLoginException msg), w')
    /\ msg = "Failed to login to Remedy server: HTTP "
               ++ Py.str_of_int (status_code response)
               ++ " (" ++ reason response ++ ")"
    /\ contains (Py.str_of_int (status_code response)) msg = true
    /\ contains (reason response) msg = true
    /\ sent w' = (sent w ++ [login_request api_url username password])%list
    /\ auth_token
         (self (snd (__init__ network api_url username password
                              {| self := fresh_instance; world := w |}))) = None.
Proof.
  intros R K.
  destruct (new_steps network api_url username password w) as [lg E].
  rewrite R, is_http_error_ok, K in E. cbn [negb] in E.
  do 2 eexists. split; [exact E|]. split; [reflexivity|].
  split; [apply contains_infix|].
  split; [do 3 apply contains_later; apply contains_here|].
  split; [reflexivity|].
  unfold new in E.
  destruct (__init__ network api_url username password
                     {| self := fresh_instance; world := w |}) as [[[]|e] m] eqn:I;
    [discriminate|].
  cbn [snd]. eapply init_raised_no_token; exact I.
Qed.

Lemma login_http_error_witness :
  exists msg w',
    new (always (Responded not_found)) "https://itsm.example" "bob" "secret" quiet
    = (Raise (RemedyLoginException msg), w')
    /\ msg = "Failed to login to Remedy server: HTTP 404 (Not Found)".
Proof.
  destruct (login_http_error (always (Responded not_found))
                             "https://itsm.example" "bob" "secret" quiet
                             not_found eq_refl eq_refl)
    as [msg [w' [H1 [H2 _]]]].
  exists msg, w'. split; [exact H1 | exact H2].
Defined.

(** C2, counterexample.  A login response with status 304 is not a 2xx
    response, yet it is [ok]: the constructor returns an instance, with
    the token built from the (empty) body. *)
Lemma login_not_modified_succeeds :
  is_2xx not_modified = false
  /\ fst (new (always (Responded not_modified))
              "https://itsm.example" "bob" "secret" quiet)
     = Return {| remedy_base_url := "https://itsm.example";
                 auth_token := Some "AR-JWT " |}.
Proof. split; reflexivity. Qed.

(** A login that gets an [ok] response yields the instance holding the
    base URL and the token "AR-JWT " followed by the body. *)
Lemma login_ok network api_url username password w response :
  network (sent w) (login_request api_url username password) = Responded response ->
  ok response = true ->
  fst (new network api_url username password w)
  = Return {| remedy_base_url := api_url;
              auth_token := Some ("AR-JWT " ++ text response) |}.
Proof.
  intros R K. destruct (new_steps network api_url username password w) as [lg E].
  rewrite E, R, K. reflexivity.
Qed.

(** ** Failures of [modify_entry] *)

(** C4, the code at the failing input.  For every response to
    [modify_entry] that is not [ok], a 404 among them, the exception
    raised is [RemedyException("Failed to modify the incident")]: its
    message is the same whatever the response body, which goes to the log
    at level [ERROR] and nowhere else.  No attribute is assigned. *)
Theorem modify_entry_failure_drops_body
        (network : Network) (form entry_id : string) (field_values : Json)
        (m : Machine) (response : Response) :
  has_token m = true ->
  network (sent (world m))
          (request_of (ModifyEntry form field_values entry_id) (self m))
  = Responded response ->
  ok response = false ->
  exists m',
    modify_entry network form field_values entry_id m
    = (Raise (RemedyException "Failed to modify the incident"), m')
    /\ self m' = self m
    /\ In (ERROR, LStr ("Error modifying incident: " ++ text response))
          (logged (world m')).
Proof.
  intros T R K. destruct m as [[base tok] [snt lgd]].
  unfold_methods. cbn in T, R |- *. rewrite T. cbn. rewrite R, K. cbn.
  eexists. split; [reflexivity|]. split; [reflexivity|].
  cbn. rewrite !in_app_iff. right. left. reflexivity.
Qed.

Lemma modify_entry_failure_drops_body_witness :
  status_code not_found = 404
  /\ text not_found = not_found_body
  /\ exists m',
      modify_entry (always (Responded not_found)) "HPD:Help Desk"
                   (JObj [("Status", JStr "Resolved")]) "INC000000000001" logged_in
      = (Raise (RemedyException "Failed to modify the incident"), m')
      /\ contains not_found_body "Failed to modify the incident" = false
      /\ In (ERROR, LStr ("Error modifying incident: " ++ not_found_body))
            (logged (world m')).
Proof.
  split; [reflexivity | split; [reflexivity |]].
  destruct (modify_entry_failure_drops_body
              (always (Responded not_found)) "HPD:Help Desk" "INC000000000001"
              (JObj [("Status", JStr "Resolved")]) logged_in not_found
              eq_refl eq_refl eq_refl)
    as [m' [H1 [_ H3]]].
  exists m'. split; [exact H1 | split; [reflexivity | exact H3]].
Defined.

(** A 304 response, which is not 2xx, is [ok]: [modify_entry] returns. *)
Example modify_entry_not_modified_returns :
  is_2xx not_modified = false
  /\ fst (modify_entry (always (Responded not_modified)) "HPD:Help Desk"
                       (JObj []) "INC000000000001" logged_in) = Return tt.
Proof. split; reflexivity. Qed.

(** ** The context manager *)

(** [__exit__] on a session without a token sends nothing and returns
    [None]. *)
Lemma exit_without_token network exc m :
  has_token m = false ->
  fst (__exit__ network exc m) = Return None
  /\ self (snd (__exit__ network exc m)) = self m
  /\ sent (world (snd (__exit__ network exc m))) = sent (world m).
Proof.
  intros T. destruct m as [[base tok] [snt lgd]].
  unfold_methods. cbn in T |- *. rewrite T. destruct exc; cbn; repeat split.
Qed.

(** C5, as amended.  When the block raises [e] and the session still
    holds a token, [__exit__] sends the logout request.  If the response
    is [ok], [__exit__] returns [None], the token is cleared and [e] is
    what the [with] statement raises.  If the logout fails, on a response
    that is not [ok] or on the transport, [__exit__] does not return: it
    raises the logout failure, and that failure, not [e], is what the
    [with] statement raises. *)
Theorem exit_during_unwind
        (network : Network) (block : M unit) (m m1 : Machine) (e : Exn) :
  block m = (Raise e, m1) ->
  has_token m1 = true ->
  exists o m2,
    with_session network block m = (o, m2)
    /\ sent (world m2) = (sent (world m1) ++ [logout_request (self m1)])%list
    /\ match network (sent (world m1)) (logout_request (self m1)) with
       | Responded response =>
           if ok response then
             fst (__exit__ network (Some e) m1) = Return None
             /\ o = Raise e
             /\ auth_token (self m2) = None
           else
             fst (__exit__ network (Some e) m1)
               = Raise (http_failure Logout response)
             /\ o = Raise (http_failure Logout response)
             /\ self m2 = self m1
       | Failed cause =>
           fst (__exit__ network (Some e) m1) = Raise (RequestException cause)
           /\ o = Raise (RequestException cause)
           /\ self m2 = self m1
       end.
Proof.
  intros B T. unfold with_session, __enter__. rewrite B.
  destruct m1 as [[base tok] [snt lgd]].
  unfold_methods. cbn in T |- *. rewrite !T. cbn. rewrite ?T. cbn.
  destruct (network snt _) as [resp|cause]; [destruct (ok resp)|]; cbn;
    do 2 eexists; (split; [reflexivity|]); repeat split.
Qed.

Lemma exit_during_unwind_witness :
  exists o m2,
    with_session (always (Responded no_content)) failing_block logged_in = (o, m2)
    /\ o = Raise (OtherException "ValueError" "boom")
    /\ auth_token (self m2) = None.
Proof.
  destruct (exit_during_unwind (always (Responded no_content)) failing_block
                               logged_in logged_in
                               (OtherException "ValueError" "boom")
                               eq_refl eq_refl)
    as [o [m2 [H1 [_ [_ [H3 H4]]]]]].
  exists o, m2. repeat split; assumption.
Defined.

(** C5, counterexample.  The block raises a [ValueError] and the server
    answers the logout with status 500: [__exit__] raises instead of
    returning [None], and the [with] statement raises the
    [RemedyLogoutException], not the [ValueError]. *)
Lemma logout_failure_replaces_error :
  fst (__exit__ (always (Responded server_error))
                (Some (OtherException "ValueError" "boom")) logged_in)
    <> Return None
  /\ fst (with_session (always (Responded server_error)) failing_block logged_in)
     = Raise (RemedyLogoutException
                ("Failed to log out of Helix ITSM server: (500) busy" ++ dq))
  /\ fst (with_session (always (Responded server_error)) failing_block logged_in)
     <> Raise (OtherException "ValueError" "boom").
Proof. repeat split; cbv; discriminate. Qed.

(** ** The calls into [requests] *)

(** A method called on a session with a token hands [requests] exactly
    the request of the interface table. *)
Lemma sent_by_call network c m :
  has_token m = true ->
  sent (world (snd (invoke network c m)))
  = (sent (world m) ++ [request_of c (self m)])%list.
Proof.
  intros T. destruct (invoke_with_token network c m T) as [lg E].
  rewrite E. reflexivity.
Qed.

Lemma sent_by_query_form network form query fields limit m :
  has_token m = true ->
  sent (world (snd (query_form network form query fields limit m)))
  = (sent (world m) ++ [request_of (QueryForm form query fields limit) (self m)])%list.
Proof.
  intros T. rewrite <- (sent_by_call network _ m T).
  cbn [invoke]. rewrite (bind_ret_machine _ VBody). reflexivity.
Qed.

Lemma sent_by_create_entry network form field_values fields m :
  has_token m = true ->
  sent (world (snd (create_entry network form field_values fields m)))
  = (sent (world m) ++ [request_of (CreateEntry form field_values fields) (self m)])%list.
Proof.
  intros T. rewrite <- (sent_by_call network _ m T).
  cbn [invoke]. rewrite (bind_ret_machine _ (fun r => VCreated (fst r) (snd r))).
  reflexivity.
Qed.

(** The parameters of [query_form], key by key. *)
Lemma query_params_limit query fields limit :
  Py.get (query_params query fields limit) "limit"
  = if Py.truthy_int limit then option_map PInt limit else None.
Proof.
  destruct query as [[|c q]|], fields as [[|f fs]|], limit as [n|]; cbn;
    try reflexivity; destruct (n =? 0); reflexivity.
Qed.

Lemma query_params_fields query fields limit :
  Py.get (query_params query fields limit) "fields"
  = match fields with
    | Some (f :: fs) => Some (values (f :: fs))
    | _ => None
    end.
Proof.
  destruct query as [[|c q]|], fields as [[|f fs]|], limit as [n|]; cbn;
    try reflexivity; destruct (n =? 0); reflexivity.
Qed.

(** C6.  [query_form] with [limit = 0] behaves on every machine exactly
    as with no limit: the same request, hence the same outcome.  On a
    session with a token, the request carries a [limit] parameter, with
    the value given, exactly when the [limit] argument is truthy. *)
Theorem query_form_limit_zero
        (network : Network) (form : string) (query : option string)
        (fields : option (list string)) (m : Machine) :
  query_form network form query fields (Some 0) m
  = query_form network form query fields None m
  /\ request_of (QueryForm form query fields (Some 0)) (self m)
     = request_of (QueryForm form query fields None) (self m)
  /\ forall limit,
      has_token m = true ->
      exists rq,
        sent (world (snd (query_form network form query fields limit m)))
        = (sent (world m) ++ [rq])%list
        /\ req_param rq "limit"
           = if Py.truthy_int limit then option_map PInt limit else None.
Proof.
  split; [reflexivity | split; [reflexivity |]].
  intros limit T. eexists. split.
  - apply sent_by_query_form. exact T.
  - unfold req_param. cbn [request_of req_params]. apply query_params_limit.
Qed.

Lemma query_form_limit_zero_witness :
  exists rq,
    sent (world (snd (query_form unreachable "HPD:Help Desk" None None
                                 (Some 0) logged_in))) = [rq]
    /\ req_param rq "limit" = None.
Proof.
  destruct (query_form_limit_zero unreachable "HPD:Help Desk" None None logged_in)
    as [_ [_ H]].
  destruct (H (Some 0) eq_refl) as [rq [H1 H2]].
  exists rq. split; [exact H1 | exact H2].
Defined.

(** C7.  On a session with a token, the request of [create_entry] and
    the request of [query_form] carry a [fields] parameter exactly when
    the field list is a non-empty list, and its value is then the names
    joined by commas, in the order given, between "values(" and ")". *)
Theorem fields_parameter
        (network : Network) (form : string) (field_values : Json)
        (query : option string) (limit : option Z)
        (fields : option (list string)) (m : Machine) :
  has_token m = true ->
  exists rq_create rq_query,
    sent (world (snd (create_entry network form field_values fields m)))
    = (sent (world m) ++ [rq_create])%list
    /\ sent (world (snd (query_form network form query fields limit m)))
       = (sent (world m) ++ [rq_query])%list
    /\ match fields with
       | Some (f :: fs) =>
           req_param rq_create "fields"
           = Some (PStr ("values(" ++ String.concat "," (f :: fs) ++ ")"))
           /\ req_param rq_query "fields"
              = Some (PStr ("values(" ++ String.concat "," (f :: fs) ++ ")"))
       | _ =>
           req_param rq_create "fields" = None
           /\ req_param rq_query "fields" = None
       end.
Proof.
  intros T. do 2 eexists.
  split; [apply sent_by_create_entry; exact T|].
  split; [apply sent_by_query_form; exact T|].
  unfold req_param. cbn [request_of req_params].
  rewrite query_params_fields.
  destruct fields as [[|f fs]|]; split; reflexivity.
Qed.

Lemma fields_parameter_witness :
  exists rq_create rq_query,
    sent (world (snd (create_entry unreachable "HPD:Help Desk" (JObj [])
                                   (Some ["Status"; "Priority"]) logged_in)))
    = [rq_create]
    /\ sent (world (snd (query_form unreachable "HPD:Help Desk" None
                                    (Some ["Status"; "Priority"]) None logged_in)))
       = [rq_query]
    /\ req_param rq_create "fields" = Some (PStr "values(Status,Priority)")
    /\ req_param rq_query "fields" = Some (PStr "values(Status,Priority)").
Proof.
  destruct (fields_parameter unreachable "HPD:Help Desk" (JObj []) None None
                             (Some ["Status"; "Priority"]) logged_in eq_refl)
    as [rq1 [rq2 [H1 [H2 [H3 H4]]]]].
  exists rq1, rq2. repeat split; assumption.
Defined.

(** ** What [create_entry] returns *)

(** The location handed back: the header when it is there, looked up
    without regard to case, and the empty string when it is not. *)
Lemma location_of_present response v :
  headers_get (headers response) "Location" = Some v ->
  location_of response = v.
Proof. unfold location_of. intros ->. destruct v; reflexivity. Qed.

Lemma location_of_absent response :
  headers_get (headers response) "Location" = None ->
  location_of response = EmptyString.
Proof. unfold location_of. intros ->. reflexivity. Qed.

(** On a 2xx response whose body is a JSON text, [create_entry] returns
    the location and the decoded body. *)
Lemma create_entry_returns network form field_values fields m response body :
  has_token m = true ->
  network (sent (world m))
          (request_of (CreateEntry form field_values fields) (self m))
  = Responded response ->
  is_2xx response = true ->
  JsonDecoder.loads (text response) = Some body ->
  fst (create_entry network form field_values fields m)
  = Return (location_of response, body).
Proof.
  intros T R K L.
  destruct (invoke_with_token network (CreateEntry form field_values fields) m T)
    as [lg E].
  rewrite R in E. cbn [answer] in E. rewrite (is_2xx_ok _ K) in E.
  unfold decoded in E. rewrite L in E.
  apply (f_equal fst) in E. cbn [fst invoke] in E.
  rewrite bind_ret_outcome in E.
  destruct (fst (create_entry network form field_values fields m)) as [[loc b]|e];
    inversion E. reflexivity.
Qed.

(** C8, the code at the failing input.  On a 2xx response with an empty
    body, [create_entry] does not return the location with an empty
    object: after the request has gone out it raises the decoder's
    [JSONDecodeError]. *)
Theorem create_entry_empty_body
        (network : Network) (form : string) (field_values : Json)
        (fields : option (list string)) (m : Machine) (response : Response) :
  has_token m = true ->
  network (sent (world m))
          (request_of (CreateEntry form field_values fields) (self m))
  = Responded response ->
  is_2xx response = true ->
  text response = EmptyString ->
  fst (create_entry network form field_values fields m)
  = Raise (JSONDecodeError EmptyString)
  /\ sent (world (snd (create_entry network form field_values fields m)))
     = (sent (world m)
          ++ [request_of (CreateEntry form field_values fields) (self m)])%list.
Proof.
  intros T R K B. split; [| apply sent_by_create_entry; exact T].
  destruct (invoke_with_token network (CreateEntry form field_values fields) m T)
    as [lg E].
  rewrite R in E. cbn [answer] in E. rewrite (is_2xx_ok _ K) in E.
  unfold decoded in E. rewrite B in E. cbn in E.
  apply (f_equal fst) in E. cbn [fst] in E. rewrite bind_ret_outcome in E.
  destruct (fst (create_entry network form field_values fields m)) as [[loc b]|e];
    inversion E. reflexivity.
Qed.

Lemma create_entry_empty_body_witness :
  headers_get (headers created_no_body) "Location"
  = Some "https://itsm.example/arsys/v1.0/entry/HPD:Help%20Desk/INC000000000001"
  /\ fst (create_entry (always (Responded created_no_body)) "HPD:Help Desk"
                       (JObj [("Description", JStr "Printer on fire")])
                       None logged_in)
     = Raise (JSONDecodeError EmptyString).
Proof.
  split; [reflexivity|].
  exact (proj1 (create_entry_empty_body
                  (always (Responded created_no_body)) "HPD:Help Desk"
                  (JObj [("Description", JStr "Printer on fire")])
                  None logged_in created_no_body
                  eq_refl eq_refl eq_refl eq_refl)).
Defined.

(** ** Transport failures *)

(** C9, as amended.  When the transport fails, the constructor and every
    call on a session with a token raise the exception of the transport
    itself, as [requests] raised it, with its cause.  It is not an
    instance of [RemedyException].  The failures raised on a response
    that is not [ok] all are, so the two kinds can be told apart. *)
Theorem transport_failure_propagates (network : Network) (cause : TransportFailure) :
  (forall api_url username password w,
      network (sent w) (login_request api_url username password) = Failed cause ->
      fst (new network api_url username password w) = Raise (RequestException cause))
  /\ (forall c m,
         has_token m = true ->
         network (sent (world m)) (request_of c (self m)) = Failed cause ->
         fst (invoke network c m) = Raise (RequestException cause)
         /\ self (snd (invoke network c m)) = self m)
  /\ is_RemedyException (RequestException cause) = false
  /\ (forall api_url username password w response,
         network (sent w) (login_request api_url username password)
         = Responded response ->
         ok response = false ->
         exists e, fst (new network api_url username password w) = Raise e
                   /\ is_RemedyException e = true)
  /\ (forall c m response,
         has_token m = true ->
         network (sent (world m)) (request_of c (self m)) = Responded response ->
         ok response = false ->
         exists e, fst (invoke network c m) = Raise e
                   /\ is_RemedyException e = true).
Proof.
  split; [| split; [| split; [| split]]].
  - intros api_url username password w R.
    destruct (new_steps network api_url username password w) as [lg E].
    rewrite E, R. reflexivity.
  - intros c m T R. destruct (invoke_with_token network c m T) as [lg E].
    rewrite E, R. cbn. destruct c; split; reflexivity.
  - reflexivity.
  - intros api_url username password w response R K.
    destruct (new_steps network api_url username password w) as [lg E].
    rewrite E, R, K. eexists. split; reflexivity.
  - intros c m response T R K.
    destruct (invoke_with_token network c m T) as [lg E].
    rewrite E, R. cbn [answer fst]. rewrite K.
    eexists. split; [reflexivity|]. destruct c; reflexivity.
Qed.

Lemma transport_failure_propagates_witness :
  fst (new unreachable "https://itsm.example" "bob" "secret" quiet)
  = Raise (RequestException Timeout)
  /\ fst (invoke unreachable (GetSchema "HPD:Help Desk") logged_in)
     = Raise (RequestException Timeout)
  /\ is_RemedyException (RequestException Timeout) = false.
Proof.
  destruct (transport_failure_propagates unreachable Timeout)
    as [H1 [H2 [H3 _]]].
  split; [exact (H1 _ _ _ _ eq_refl)|].
  split; [exact (proj1 (H2 (GetSchema "HPD:Help Desk") logged_in eq_refl eq_refl))
         | exact H3].
Defined.

(** C9, counterexample.  The request of [create_entry] times out: what
    the caller gets is the exception of the transport, which is not a
    [RemedyException]. *)
Lemma timeout_is_not_wrapped :
  fst (create_entry unreachable "HPD:Help Desk" (JObj []) None logged_in)
  = Raise (RequestException Timeout)
  /\ is_RemedyException (RequestException Timeout) = false.
Proof. split; reflexivity. Qed.

(** ** End to end *)

(** Login against a server that answers 200 with the body "tok123", then
    [get_schema]: the request carries the token and the two fixed
    parameters, and the JSON body of the answer comes back as it is. *)
Example login_then_get_schema :
  let network :=
    scripted [Responded token_issued;
              Responded (respond 200 "OK" ("[{" ++ quoted "name" ++ ": "
                                                ++ quoted "Status" ++ "}]") [])] in
  exists s w,
    new network "https://itsm.example" "bob" "secret" quiet = (Return s, w)
    /\ auth_token s = Some "AR-JWT tok123"
    /\ fst (get_schema network "HPD:Help Desk" {| self := s; world := w |})
       = Return (JArr [JObj [("name", JStr "Status")]])
    /\ nth_error
         (sent (world (snd (get_schema network "HPD:Help Desk"
                                       {| self := s; world := w |})))) 1
       = Some {| req_method := GET;
                 req_url := "https://itsm.example/arsys/v1.0/fields/HPD:Help Desk";
                 req_params :=
                   Some [("field_criteria",
                          PStr "NAME, DATATYPE, LIMIT, DISPLAY_INSTANCE, OPTIONS");
                         ("field_type", PStr "DATA, ATTACH, ATTACHPOOL")];
                 req_data := None; req_json := None;
                 req_headers := Some [("Authorization", Some "AR-JWT tok123")];
                 req_timeout := 60 |}.
Proof. cbv zeta. do 2 eexists. repeat split. Qed.

(** * Further properties of the module *)

(** ** Helpers *)

(** After any call, the instance is what [settled] says. *)
Lemma invoke_settled network c m :
  self (snd (invoke network c m))
  = settled c (fst (invoke network c m)) (self m).
Proof.
  destruct (has_token m) eqn:T.
  - destruct (invoke_with_token network c m T) as [lg E]. rewrite E. reflexivity.
  - destruct (invoke_without_token network c m T) as [o [E R]]. rewrite E.
    cbn [fst snd]. destruct c; cbn in R |- *; try reflexivity.
    rewrite R. reflexivity.
Qed.

(** The outcome of a call on a session with a token. *)
Lemma invoke_outcome network c m :
  has_token m = true ->
  fst (invoke network c m)
  = answer c (network (sent (world m)) (request_of c (self m))).
Proof.
  intros T. destruct (invoke_with_token network c m T) as [lg E].
  rewrite E. reflexivity.
Qed.

(** The request of the interface table is made on behalf of the
    session. *)
Lemma request_of_from_session c s : from_session s (request_of c s).
Proof.
  unfold from_session.
  destruct c; cbn [request_of logout_request req_headers req_timeout req_url];
    repeat split; apply prefix_refl_app.
Qed.

(** The calls into [requests] made by a sequence of method calls: the
    earlier ones stay recorded, at most one is added for each method
    call, and each of them is made on behalf of the session the sequence
    started with. *)
Lemma run_tail network cs :
  forall m,
  exists tail,
    sent (world (snd (run network cs m))) = (sent (world m) ++ tail)%list
    /\ (length tail <= length cs)%nat
    /\ Forall (from_session (self m)) tail.
Proof.
  induction cs as [|c cs IH]; intros m.
  - exists []. cbn. rewrite app_nil_r. repeat split; [lia | constructor].
  - cbn [run]. destruct (has_token m) eqn:T.
    + pose proof (sent_by_call network c m T) as S.
      pose proof (invoke_settled network c m) as F.
      destruct (invoke network c m) as [o m1]. cbn [fst snd] in S, F.
      destruct (has_token m1) eqn:T1.
      * assert (Q : self m1 = self m).
        { rewrite F. destruct c, o; try reflexivity.
          unfold has_token in T1. rewrite F in T1. discriminate. }
        destruct (IH m1) as [tail [H1 [H2 H3]]].
        destruct (run network cs m1) as [os m2]. cbn [snd] in *.
        exists (request_of c (self m) :: tail).
        rewrite H1, S, <- app_assoc. cbn [app length].
        repeat split; [lia|].
        constructor; [apply request_of_from_session | rewrite <- Q; exact H3].
      * destruct (run_without_token network cs m1 T1) as [R _].
        destruct (run network cs m1) as [os m2]. cbn [snd] in *. subst m2.
        exists [request_of c (self m)]. cbn [length].
        repeat split; [exact S | lia |].
        constructor; [apply request_of_from_session | constructor].
    + destruct (invoke_without_token network c m T) as [o [E _]]. rewrite E.
      destruct (IH m) as [tail [H1 [H2 H3]]].
      destruct (run network cs m) as [os m2]. cbn [snd] in *.
      exists tail. cbn [length]. repeat split; [exact H1 | lia | exact H3].
Qed.

(** ** Login that succeeds *)

(** X1.  When the login response is [ok], the constructor returns an
    instance that holds the base URL it was given and the token "AR-JWT "
    followed by the response body.  That token passes the guard of every
    method even when the body is empty.  The constructor has made
    exactly one call into [requests]: a [post] to the login URL with the
    credentials as [data] and no [headers] argument. *)
Theorem login_success
        (network : Network) (api_url username password : string)
        (w : World) (response : Response) :
  network (sent w) (login_request api_url username password) = Responded response ->
  ok response = true ->
  exists s w',
    new network api_url username password w = (Return s, w')
    /\ remedy_base_url s = api_url
    /\ auth_token s = Some ("AR-JWT " ++ text response)
    /\ has_token {| self := s; world := w' |} = true
    /\ exists rq,
        sent w' = (sent w ++ [rq])%list
        /\ req_method rq = POST
        /\ req_url rq = api_url ++ "/jwt/login"
        /\ req_data rq = Some [("username", username); ("password", password)]
        /\ req_headers rq = None.
Proof.
  intros R K.
  destruct (new_steps network api_url username password w) as [lg E].
  rewrite R, K in E. do 2 eexists. split; [exact E|].
  repeat split. eexists. repeat split.
Qed.

Lemma login_success_witness :
  exists s w',
    new (always (Responded not_modified)) "https://itsm.example" "bob" "secret" quiet
    = (Return s, w')
    /\ auth_token s = Some "AR-JWT "
    /\ has_token {| self := s; world := w' |} = true.
Proof.
  destruct (login_success (always (Responded not_modified))
                          "https://itsm.example" "bob" "secret" quiet
                          not_modified eq_refl eq_refl)
    as [s [w' [H1 [_ [H3 [H4 _]]]]]].
  exists s, w'. repeat split; assumption.
Defined.

(** ** Sequences of calls *)

(** X2.  Whatever calls are made on an instance, in whatever order and
    with whatever outcomes, its base URL stays the one it had, and its
    token is either the one it had or [None]: no method issues or
    installs another token. *)
Theorem run_keeps_session (network : Network) (cs : list Call) (m : Machine) :
  remedy_base_url (self (snd (run network cs m))) = remedy_base_url (self m)
  /\ (auth_token (self (snd (run network cs m))) = auth_token (self m)
      \/ auth_token (self (snd (run network cs m))) = None).
Proof.
  revert m. induction cs as [|c cs IH]; intros m.
  - cbn. split; [reflexivity | left; reflexivity].
  - cbn [run]. pose proof (invoke_settled network c m) as F.
    destruct (invoke network c m) as [o m1]. cbn [fst snd] in F.
    destruct (IH m1) as [B T].
    destruct (run network cs m1) as [os m2]. cbn [snd] in *.
    rewrite B, F. split; [destruct c, o; reflexivity|].
    destruct T as [T|T]; [| right; exact T].
    rewrite T, F. destruct c, o; cbn; auto.
Qed.

(** X3.  A sequence of method calls never drops or alters a call into
    [requests] that was made, and makes at most one call into [requests]
    for each method call: the module by itself repeats nothing. *)
Theorem run_sends_at_most_one_each
        (network : Network) (cs : list Call) (m : Machine) :
  exists tail,
    sent (world (snd (run network cs m))) = (sent (world m) ++ tail)%list
    /\ (length tail <= length cs)%nat.
Proof.
  destruct (run_tail network cs m) as [tail [H1 [H2 _]]].
  exists tail. split; assumption.
Qed.

(** X4.  Every call into [requests] made during a sequence of method
    calls is handed, as its [headers] argument, the [Authorization]
    header with the token the instance held when the sequence began and
    nothing else, as its [timeout] argument 60, and as its URL argument
    a string that starts with the base URL of the instance. *)
Theorem run_requests_from_session
        (network : Network) (cs : list Call) (m : Machine) :
  exists tail,
    sent (world (snd (run network cs m))) = (sent (world m) ++ tail)%list
    /\ Forall (fun rq =>
                 req_headers rq = Some [("Authorization", auth_token (self m))]
                 /\ req_timeout rq = 60
                 /\ prefix (remedy_base_url (self m)) (req_url rq) = true)
              tail.
Proof.
  destruct (run_tail network cs m) as [tail [H1 [_ H3]]].
  exists tail. split; [exact H1 | exact H3].
Qed.

(** ** Responses that are not [ok] *)

(** X5.  On a response that is not [ok], every call other than
    [modify_entry] raises an exception of the module's hierarchy whose
    message contains the response body text, and leaves the instance as
    it was. *)
Theorem http_failure_carries_body
        (network : Network) (c : Call) (m : Machine) (response : Response) :
  has_token m = true ->
  is_modify c = false ->
  network (sent (world m)) (request_of c (self m)) = Responded response ->
  ok response = false ->
  exists e,
    fst (invoke network c m) = Raise e
    /\ is_RemedyException e = true
    /\ contains (text response) (message e) = true
    /\ self (snd (invoke network c m)) = self m.
Proof.
  intros T N R K. rewrite invoke_settled, (invoke_outcome network c m T), R.
  cbn [answer]. rewrite K. eexists. split; [reflexivity|].
  destruct c; try discriminate; cbn [http_failure is_RemedyException message settled];
    repeat split; try apply contains_suffix.
  do 3 apply contains_later. apply contains_here.
Qed.

Lemma http_failure_carries_body_witness :
  exists e,
    fst (invoke (always (Responded not_found))
                (QueryForm "HPD:Help Desk" None None None) logged_in) = Raise e
    /\ contains not_found_body (message e) = true.
Proof.
  destruct (http_failure_carries_body
              (always (Responded not_found))
              (QueryForm "HPD:Help Desk" None None None) logged_in not_found
              eq_refl eq_refl eq_refl eq_refl)
    as [e [H1 [_ [H3 _]]]].
  exists e. split; [exact H1 | exact H3].
Defined.

(** X6.  A [logout] answered with a response that is not [ok] raises
    [RemedyLogoutException]; the message contains the status code and
    the response body text; and the token is still held afterwards. *)
Theorem logout_failure_reports_status
        (network : Network) (m : Machine) (response : Response) :
  has_token m = true ->
  network (sent (world m)) (logout_request (self m)) = Responded response ->
  ok response = false ->
  exists msg,
    fst (logout network m) = Raise (RemedyLogoutException msg)
    /\ contains (Py.str_of_int (status_code response)) msg = true
    /\ contains (text response) msg = true
    /\ has_token (snd (logout network m)) = true.
Proof.
  intros T R K. rewrite logout_invoke. cbn [fst snd].
  unfold has_token at 1. rewrite invoke_settled.
  rewrite (invoke_outcome network Logout m T). cbn [request_of]. rewrite R.
  cbn [answer]. rewrite K. cbn [http_failure settled]. eexists.
  split; [reflexivity|]. split; [apply contains_infix|].
  split; [do 3 apply contains_later; apply contains_here | exact T].
Qed.

Lemma logout_failure_reports_status_witness :
  exists msg,
    fst (logout (always (Responded server_error)) logged_in)
    = Raise (RemedyLogoutException msg)
    /\ contains "500" msg = true
    /\ contains "busy" msg = true.
Proof.
  destruct (logout_failure_reports_status
              (always (Responded server_error)) logged_in server_error
              eq_refl eq_refl eq_refl)
    as [msg [H1 [H2 [H3 _]]]].
  exists msg. repeat split; assumption.
Defined.

(** ** The parameters of [query_form] *)

(** X7.  On a session with a token, [query_form] sends one GET request
    whose parameters are, in this order, [q] when the query is a
    non-empty string, [limit] when the limit is a non-zero integer and
    [fields] when the field list is a non-empty list, and nothing else;
    [q] has the query as its value. *)
Theorem query_form_parameters
        (network : Network) (form : string) (query : option string)
        (fields : option (list string)) (limit : option Z) (m : Machine) :
  has_token m = true ->
  exists rq params,
    sent (world (snd (query_form network form query fields limit m)))
    = (sent (world m) ++ [rq])%list
    /\ req_method rq = GET
    /\ req_params rq = Some params
    /\ map fst params
       = ((if Py.truthy_str query then ["q"] else [])
            ++ (if Py.truthy_int limit then ["limit"] else [])
            ++ (if Py.truthy_list fields then ["fields"] else []))%list
    /\ Py.get params "q"
       = if Py.truthy_str query then option_map PStr query else None.
Proof.
  intros T. do 2 eexists.
  split; [apply sent_by_query_form; exact T|].
  cbn [request_of req_method req_params]. split; [reflexivity|].
  split; [reflexivity|].
  destruct query as [[|a q]|], fields as [[|f fs]|], limit as [n|]; cbn;
    try (split; reflexivity); destruct (n =? 0); split; reflexivity.
Qed.

Lemma query_form_parameters_witness :
  exists rq params,
    sent (world (snd (query_form unreachable "HPD:Help Desk"
                                 (Some "'Status' = 0") (Some ["Status"]) (Some 5)
                                 logged_in))) = [rq]
    /\ req_params rq = Some params
    /\ map fst params = ["q"; "limit"; "fields"]
    /\ Py.get params "q" = Some (PStr "'Status' = 0").
Proof.
  destruct (query_form_parameters unreachable "HPD:Help Desk"
                                  (Some "'Status' = 0") (Some ["Status"]) (Some 5)
                                  logged_in eq_refl)
    as [rq [params [H1 [_ [H3 [H4 H5]]]]]].
  exists rq, params. repeat split; assumption.
Defined.

(** X8.  An empty query string is handled exactly as no query, and an
    empty field list exactly as no field list, by [query_form] and by
    [create_entry]: same request, same outcome, on every machine. *)
Theorem empty_arguments_as_none
        (network : Network) (form : string) (field_values : Json)
        (query : option string) (fields : option (list string))
        (limit : option Z) (m : Machine) :
  query_form network form (Some EmptyString) fields limit m
  = query_form network form None fields limit m
  /\ query_form network form query (Some []) limit m
     = query_form network form query None limit m
  /\ create_entry network form field_values (Some []) m
     = create_entry network form field_values None m.
Proof. repeat split. Qed.

(** ** Responses that are [ok] *)

Lemma location_of_get response :
  location_of response
  = match headers_get (headers response) "Location" with
    | Some v => v
    | None => EmptyString
    end.
Proof.
  unfold location_of.
  destruct (headers_get (headers response) "Location") as [[|c v]|]; reflexivity.
Qed.

(** X9.  On an [ok] response, [query_form] and [get_schema] return the
    body decoded as JSON, whatever its shape.  When the body is not a
    JSON text they raise the decoder's error, which is not an exception
    of the module's hierarchy. *)
Theorem body_is_decoded_or_decoder_error
        (network : Network) (c : Call) (m : Machine) (response : Response) :
  has_token m = true ->
  returns_body c = true ->
  network (sent (world m)) (request_of c (self m)) = Responded response ->
  ok response = true ->
  match JsonDecoder.loads (text response) with
  | Some body => fst (invoke network c m) = Return (VBody body)
  | None =>
      fst (invoke network c m) = Raise (JSONDecodeError (text response))
      /\ is_RemedyException (JSONDecodeError (text response)) = false
  end.
Proof.
  intros T B R K. rewrite (invoke_outcome network c m T), R.
  cbn [answer]. rewrite K.
  destruct c; try discriminate; unfold decoded;
    destruct (JsonDecoder.loads (text response)); repeat split.
Qed.

Lemma body_is_decoded_or_decoder_error_witness :
  fst (invoke (always (Responded entries_reply)) (GetSchema "HPD:Help Desk") logged_in)
  = Return (VBody (JObj [("entries", JArr [])]))
  /\ fst (invoke (always (Responded maintenance_page))
                 (QueryForm "HPD:Help Desk" None None None) logged_in)
     = Raise (JSONDecodeError "<html>maintenance</html>").
Proof.
  split.
  - exact (body_is_decoded_or_decoder_error
             (always (Responded entries_reply)) (GetSchema "HPD:Help Desk")
             logged_in entries_reply eq_refl eq_refl eq_refl eq_refl).
  - exact (proj1 (body_is_decoded_or_decoder_error
                    (always (Responded maintenance_page))
                    (QueryForm "HPD:Help Desk" None None None)
                    logged_in maintenance_page eq_refl eq_refl eq_refl eq_refl)).
Defined.

(** X10.  On an [ok] response [modify_entry] returns [None] without
    reading the response body, so it returns also when the body is empty
    or is not JSON.  It has sent one PUT request with the field values as
    JSON body and no query parameter, and has assigned no attribute. *)
Theorem modify_entry_success
        (network : Network) (form entry_id : string) (field_values : Json)
        (m : Machine) (response : Response) :
  has_token m = true ->
  network (sent (world m))
          (request_of (ModifyEntry form field_values entry_id) (self m))
  = Responded response ->
  ok response = true ->
  fst (modify_entry network form field_values entry_id m) = Return tt
  /\ self (snd (modify_entry network form field_values entry_id m)) = self m
  /\ exists rq,
      sent (world (snd (modify_entry network form field_values entry_id m)))
      = (sent (world m) ++ [rq])%list
      /\ req_method rq = PUT
      /\ req_json rq = Some field_values
      /\ req_params rq = None.
Proof.
  intros T R K. destruct m as [[base tok] [snt lgd]].
  unfold_methods. cbn in T, R |- *. rewrite T. cbn. rewrite R, K. cbn.
  repeat split. eexists. repeat split.
Qed.

Lemma modify_entry_success_witness :
  fst (modify_entry (always (Responded no_content)) "HPD:Help Desk"
                    (JObj [("Status", JStr "Resolved")]) "INC000000000001"
                    logged_in) = Return tt.
Proof.
  exact (proj1 (modify_entry_success
                  (always (Responded no_content)) "HPD:Help Desk" "INC000000000001"
                  (JObj [("Status", JStr "Resolved")]) logged_in no_content
                  eq_refl eq_refl eq_refl)).
Defined.

(** X11.  On an [ok] response whose body is a JSON text, [create_entry]
    returns the pair of the [Location] header, found whatever the case
    of its name and replaced by the empty string when there is none, and
    the decoded body.  It has assigned no attribute. *)
Theorem create_entry_success
        (network : Network) (form : string) (field_values : Json)
        (fields : option (list string)) (m : Machine)
        (response : Response) (body : Json) :
  has_token m = true ->
  network (sent (world m))
          (request_of (CreateEntry form field_values fields) (self m))
  = Responded response ->
  ok response = true ->
  JsonDecoder.loads (text response) = Some body ->
  fst (create_entry network form field_values fields m)
  = Return (match headers_get (headers response) "Location" with
            | Some v => v
            | None => EmptyString
            end, body)
  /\ self (snd (create_entry network form field_values fields m)) = self m.
Proof.
  intros T R K L.
  pose proof (invoke_outcome network (CreateEntry form field_values fields) m T) as O.
  pose proof (invoke_settled network (CreateEntry form field_values fields) m) as F.
  rewrite R in O. cbn [answer] in O. rewrite K in O. unfold decoded in O.
  rewrite L, location_of_get in O. cbn [settled] in F.
  cbn [invoke] in O, F.
  rewrite bind_ret_outcome in O.
  rewrite (bind_ret_machine _ (fun r => VCreated (fst r) (snd r))) in F.
  split; [| exact F].
  destruct (fst (create_entry network form field_values fields m)) as [[loc b]|e];
    inversion O. reflexivity.
Qed.

Lemma create_entry_success_witness :
  fst (create_entry (always (Responded entries_reply)) "HPD:Help Desk"
                    (JObj []) (Some ["Status"]) logged_in)
  = Return ("https://itsm.example/arsys/v1.0/entry/HPD:Help%20Desk/INC000000000001",
            JObj [("entries", JArr [])]).
Proof.
  exact (proj1 (create_entry_success
                  (always (Responded entries_reply)) "HPD:Help Desk" (JObj [])
                  (Some ["Status"]) logged_in entries_reply
                  (JObj [("entries", JArr [])])
                  eq_refl eq_refl eq_refl eq_refl)).
Defined.

(** ** The context manager, on every way out *)




(** X13.  When the block returns and the session still holds a token,
    [__exit__] sends the logout request.  On an [ok] response the [with]
    statement returns and the token is cleared.  When the logout fails,
    on a response that is not [ok] or on the transport, the [with]
    statement raises that failure although the block succeeded, and the
    token is still held. *)
Theorem with_normal_exit
        (network : Network) (block : M unit) (m m1 : Machine) :
  block m = (Return tt, m1) ->
  has_token m1 = true ->
  exists o m2,
    with_session network block m = (o, m2)
    /\ sent (world m2) = (sent (world m1) ++ [logout_request (self m1)])%list
    /\ match network (sent (world m1)) (logout_request (self m1)) with
       | Responded response =>
           if ok response then
             o = Return tt /\ auth_token (self m2) = None
           else
             o = Raise (http_failure Logout response) /\ self m2 = self m1
       | Failed cause =>
           o = Raise (RequestException cause) /\ self m2 = self m1
       end.
Proof.
  intros B T. unfold with_session, __enter__. rewrite B.
  destruct m1 as [[base tok] [snt lgd]].
  unfold_methods. cbn in T |- *. rewrite !T. cbn. rewrite ?T. cbn.
  destruct (network snt _) as [resp|cause]; [destruct (ok resp)|]; cbn;
    do 2 eexists; (split; [reflexivity|]); repeat split.
Qed.

Lemma with_normal_exit_witness :
  exists o m2,
    with_session (always (Responded server_error)) quiet_block logged_in = (o, m2)
    /\ o = Raise (http_failure Logout server_error)
    /\ self m2 = self logged_in.
Proof.
  destruct (with_normal_exit (always (Responded server_error)) quiet_block
                             logged_in logged_in eq_refl eq_refl)
    as [o [m2 [H1 [_ [H3 H4]]]]].
  exists o, m2. repeat split; assumption.
Defined.

(** X14.  When the session holds no token as the block ends, for
    instance because the block has logged out by itself, [__exit__]
    sends nothing and assigns nothing, and the [with] statement ends as
    the block did: it returns if the block returned and raises the
    block's exception if the block raised. *)
Theorem with_after_inner_logout
        (network : Network) (block : M unit) (m : Machine) :
  has_token (snd (block m)) = false ->
  fst (with_session network block m) = fst (block m)
  /\ self (snd (with_session network block m)) = self (snd (block m))
  /\ sent (world (snd (with_session network block m)))
     = sent (world (snd (block m))).
Proof.
  intros T. unfold with_session, __enter__.
  destruct (block m) as [[[]|e] m1]; cbn [fst snd] in *.
  - destruct (exit_without_token network None m1 T) as [H1 [H2 H3]].
    destruct (__exit__ network None m1) as [[r|e'] m2]; cbn [fst snd] in *;
      [repeat split; assumption | discriminate].
  - destruct (exit_without_token network (Some e) m1 T) as [H1 [H2 H3]].
    destruct (__exit__ network (Some e) m1) as [[r|e'] m2]; cbn [fst snd] in *;
      [| discriminate].
    inversion H1; subst r. repeat split; assumption.
Qed.

Lemma with_after_inner_logout_witness :
  fst (with_session unreachable inner_logout_block logged_in)
  = Raise (OtherException "ValueError" "boom")
  /\ length (sent (world (snd (with_session unreachable inner_logout_block
                                            logged_in)))) = 1%nat.
Proof.
  destruct (with_after_inner_logout unreachable inner_logout_block logged_in eq_refl)
    as [H1 [_ H3]].
  rewrite H1, H3. split; reflexivity.
Defined.

(** ** What goes to the log *)

(** X15.  The constructor writes exactly three records to the log: the
    line naming the user, a rule as long as that line, and the login
    URL.  They are the same whatever the password and whatever the
    reply, so neither the password nor the token is logged by the
    constructor. *)
Theorem constructor_log
        (network : Network) (api_url username password : string) (w : World) :
  logged (snd (new network api_url username password w))
  = (logged w ++ login_log api_url username)%list.
Proof.
  destruct w as [snt lgd]. unfold login_log. unfold_methods. cbn.
  destruct (network _ _) as [resp|cause]; [destruct (ok resp)|]; cbn;
    rewrite <- ?app_assoc; reflexivity.
Qed.

(** X16.  On a session with a token, [create_entry] writes the
    [Authorization] header, token included, to the log at level [DEBUG],
    whatever the reply to its request. *)
Theorem create_entry_logs_token
        (network : Network) (form : string) (field_values : Json)
        (fields : option (list string)) (m : Machine) :
  has_token m = true ->
  In (DEBUG, LHeaders [("Authorization", auth_token (self m))])
     (logged (world (snd (create_entry network form field_values fields m)))).
Proof.
  intros T. destruct m as [[base tok] [snt lgd]].
  unfold_methods. cbn in T |- *. rewrite T. cbn.
  destruct (network _ _) as [resp|cause];
    [destruct (ok resp); [destruct (JsonDecoder.loads (text resp))|]|]; cbn;
    rewrite <- ?app_assoc; apply in_or_app; right; cbn; tauto.
Qed.

Lemma create_entry_logs_token_witness :
  In (DEBUG, LHeaders [("Authorization", Some "AR-JWT tok123")])
     (logged (world (snd (create_entry unreachable "HPD:Help Desk" (JObj [])
                                       None logged_in)))).
Proof.
  exact (create_entry_logs_token unreachable "HPD:Help Desk" (JObj []) None
                                 logged_in eq_refl).
Defined.

(** ** The interface table *)



(** ** A sequence of calls, end to end *)

(** A schema request, a modification, a logout and a query after it,
    against a server that answers every request with 204 and no body:
    three requests go out, each with the token; the schema call fails in
    the decoder, the modification and the logout return, and the query is
    refused by the guard. *)
Example working_day_run :
  fst (run (always (Responded no_content)) working_day logged_in)
  = [Raise (JSONDecodeError EmptyString);
     Return VNone;
     Return VNone;
     Raise (RemedyException "Unable to get entry without a valid login session")]
  /\ map req_method
         (sent (world (snd (run (always (Responded no_content)) working_day
                                logged_in))))
     = [GET; PUT; POST]
  /\ map req_headers
         (sent (world (snd (run (always (Responded no_content)) working_day
                                logged_in))))
     = [Some [("Authorization", Some "AR-JWT tok123")];
        Some [("Authorization", Some "AR-JWT tok123")];
        Some [("Authorization", Some "AR-JWT tok123")]]
  /\ auth_token (self (snd (run (always (Responded no_content)) working_day
                                logged_in))) = None.
Proof. repeat split. Qed.
